(** * claude_conversation_filter.py: the resolver / filter engine

    A shallow embedding of the four core functions of
    [claude_conversation_filter.py]

      - [get_user_display_name]        (lines 82-99)
      - [extract_users]                (lines 102-160)
      - [get_user_conversation_count]  (lines 163-225)
      - [filter_conversations_by_user] (lines 228-306)

    over the values that [json.load] produces, followed by the properties
    of these functions.  Python exceptions are explicit: every function
    returns a [result]. *)

From Stdlib Require Import ZArith Ascii String List.
From stdpp Require Import base tactics option list strings gmap sorting pretty.

Set Warnings "-clear-no-such-hyp".

(** ** Python values

    [json.load] yields [None], [bool], [int], [float], [str], [list] and
    [dict].  The program observes a float only through [bool(x)] and
    [str(x)], so a float is carried as those two observations.  A [str] is a
    sequence of code points; [string] carries the code points below 256.  A
    [dict] keeps its insertion order, which [repr] and [copy] preserve. *)

Record pyfloat := PyFloat { float_repr : string; float_nonzero : bool }.

Unset Elimination Schemes.
Inductive pyval :=
| VNone
| VBool (b : bool)
| VInt (z : Z)
| VFloat (f : pyfloat)
| VStr (s : string)
| VList (l : list pyval)
| VDict (d : list (string * pyval)).
Set Elimination Schemes.

Abbreviation pydict := (list (string * pyval)).

(** The only exception the core functions can raise on JSON input. *)
Inductive exn := TypeError.

Inductive result (A : Type) :=
| Ok (a : A)
| Raise (e : exn).
Arguments Ok {A} a.
Arguments Raise {A} e.

Global Instance result_ret : MRet result := fun A a => Ok a.
Global Instance result_bind : MBind result := fun A B k m =>
  match m with
  | Ok a => k a
  | Raise e => Raise e
  end.

(** ** Built-ins *)

(** [bool(v)] *)
Definition py_truthy (v : pyval) : bool :=
  match v with
  | VNone => false
  | VBool b => b
  | VInt z => negb (Z.eqb z 0)
  | VFloat f => float_nonzero f
  | VStr s => negb (String.eqb s EmptyString)
  | VList l => match l with [] => false | _ => true end
  | VDict d => match d with [] => false | _ => true end
  end.

(** [a or b] *)
Definition py_or (a b : pyval) : pyval := if py_truthy a then a else b.

Definition hex_digit (n : N) : ascii :=
  match n with
  | 0 => "0" | 1 => "1" | 2 => "2" | 3 => "3" | 4 => "4" | 5 => "5"
  | 6 => "6" | 7 => "7" | 8 => "8" | 9 => "9" | 10 => "a" | 11 => "b"
  | 12 => "c" | 13 => "d" | 14 => "e" | _ => "f"
  end%char%N.

Definition hex2 (n : N) : string :=
  String (hex_digit (n `div` 16)%N) (String (hex_digit (n `mod` 16)%N) EmptyString).

Definition has_char (c : ascii) (s : string) : bool :=
  existsb (Ascii.eqb c) (list_ascii_of_string s).

Definition dquote : ascii := "034"%char.
Definition squote : ascii := "'"%char.
Definition backslash : ascii := "\"%char.

(** [repr] picks the double quote only when the string holds a single quote
    and no double quote. *)
Definition repr_quote (s : string) : ascii :=
  if has_char squote s && negb (has_char dquote s) then dquote else squote.

Definition repr_char (q c : ascii) : string :=
  let n := N_of_ascii c in
  if Ascii.eqb c q || Ascii.eqb c backslash then String backslash (String c EmptyString)
  else if (n =? 9)%N then "\t"
  else if (n =? 10)%N then "\n"
  else if (n =? 13)%N then "\r"
  else if (n <? 32)%N || (n =? 127)%N || ((128 <=? n)%N && (n <=? 160)%N) || (n =? 173)%N
       then "\x" +:+ hex2 n
  else String c EmptyString.

(** [repr(s)] for a [str] *)
Definition repr_str (s : string) : string :=
  let q := repr_quote s in
  String q (String.concat EmptyString (map (repr_char q) (list_ascii_of_string s)))
    +:+ String q EmptyString.

(** [repr(v)] *)
Fixpoint py_repr (v : pyval) : string :=
  match v with
  | VNone => "None"
  | VBool true => "True"
  | VBool false => "False"
  | VInt z => pretty z
  | VFloat f => float_repr f
  | VStr s => repr_str s
  | VList l => "[" +:+ String.concat ", " (map py_repr l) +:+ "]"
  | VDict d =>
      "{" +:+ String.concat ", "
                (map (fun kv => let '(k, x) := kv in repr_str k +:+ ": " +:+ py_repr x) d)
          +:+ "}"
  end.

(** [str(v)] *)
Definition py_str (v : pyval) : string :=
  match v with
  | VStr s => s
  | _ => py_repr v
  end.

(** [isinstance(v, dict)], [isinstance(v, list)], [isinstance(v, str)] are the
    matches on [VDict], [VList] and [VStr] below. *)

(** [k in d] and [d[k]] for a present key *)
Fixpoint dict_lookup {V : Type} (k : string) (d : list (string * V)) : option V :=
  match d with
  | [] => None
  | (k', v) :: d' => if String.eqb k' k then Some v else dict_lookup k d'
  end.

Definition dict_mem (k : string) (d : pydict) : bool :=
  match dict_lookup k d with Some _ => true | None => false end.

(** [d.get(k, default)] *)
Definition dict_get_default (k : string) (default : pyval) (d : pydict) : pyval :=
  match dict_lookup k d with Some v => v | None => default end.

(** [d.get(k)] *)
Definition dict_get (k : string) (d : pydict) : pyval := dict_get_default k VNone d.

(** [d[k] = v]: an existing key keeps its place, a new key goes last. *)
Fixpoint dict_set (k : string) (v : pyval) (d : pydict) : pydict :=
  match d with
  | [] => [(k, v)]
  | (k', v') :: d' => if String.eqb k' k then (k, v) :: d' else (k', v') :: dict_set k v d'
  end.

(** [d.pop(k, None)], result dropped *)
Definition dict_pop (k : string) (d : pydict) : pydict :=
  List.filter (fun kv => negb (String.eqb (fst kv) k)) d.

(** [d.keys()] *)
Definition dict_keys (d : pydict) : list string := map fst d.

(** [iter(v)], drained: a list yields its items, a [str] its characters, a
    [dict] its keys; the other JSON types are not iterable. *)
Definition py_iter (v : pyval) : result (list pyval) :=
  match v with
  | VList l => Ok l
  | VStr s => Ok (map (fun c => VStr (String c EmptyString)) (list_ascii_of_string s))
  | VDict d => Ok (map VStr (dict_keys d))
  | _ => Raise TypeError
  end.

(** [sorted(l)] on strings *)
Definition py_sorted (l : list string) : list string := merge_sort String.le l.

(** [len(v)] *)
Definition py_len (v : pyval) : result nat :=
  match v with
  | VList l => Ok (length l)
  | VStr s => Ok (String.length s)
  | VDict d => Ok (length d)
  | _ => Raise TypeError
  end.

(** [v[:8]]: a [str] and a [list] are sliced, short ones whole; the other
    JSON types cannot be subscripted (for a [dict] the error is [KeyError]
    from Python 3.12 on, [TypeError] before; one error stands for both). *)
Definition py_slice8 (v : pyval) : result pyval :=
  match v with
  | VStr s => Ok (VStr (substring 0 8 s))
  | VList l => Ok (VList (take 8 l))
  | _ => Raise TypeError
  end.

(** A [for] loop whose body may raise: the loop state is threaded through
    the items from left to right and the first exception ends the loop. *)
Fixpoint for_each {S A : Type} (body : S -> A -> result S) (s : S) (items : list A)
  : result S :=
  match items with
  | [] => Ok s
  | x :: rest => s' ← body s x; for_each body s' rest
  end.

(** The shape test of a [dict] document, shared by the three traversals:
    [if 'conversations' in d: <recurse on d['conversations']> else: <other>]. *)
Definition on_conversations {A : Type} (recurse : pyval -> A) (other : A)
  : pydict -> A :=
  fix find (d : pydict) : A :=
    match d with
    | [] => other
    | (k, v) :: d' => if String.eqb k "conversations" then recurse v else find d'
    end.

(** ** Field resolution

    The same expression is written out three times for conversations (lines
    112-123, 171-182, 236-247) and six times for messages (lines 132-136,
    144-148, 191-195, 205-209, 257-261, 276-280); the copies differ only in
    the name of the variable they assign. *)

Infix "`or`" := py_or (at level 50, left associativity).

Definition conv_owner (conversation : pydict) : pyval :=
  let user_id :=
    dict_get "user_id" conversation `or` dict_get "userId" conversation
      `or` dict_get "user" conversation `or` dict_get "author" conversation in
  if negb (py_truthy user_id) && dict_mem "account" conversation then
    match dict_get "account" conversation with
    | VDict account => dict_get "uuid" account `or` dict_get "id" account
    | VStr account => VStr account
    | _ => user_id
    end
  else user_id.

Definition msg_sender (message : pydict) : pyval :=
  dict_get "user_id" message `or` dict_get "userId" message
    `or` dict_get "user" message `or` dict_get "author" message
    `or` dict_get "sender" message.

(** ** [get_user_display_name] (lines 82-99)

    [user_info_mapping] is the [dict] built by [load_user_info]: every value
    is itself a [dict]. *)
Definition get_user_display_name (user_id : pyval) (user_info_mapping : list (string * pydict))
  : result string :=
  match user_info_mapping, dict_lookup (py_str user_id) user_info_mapping with
  | [], _ | _, None => Ok (py_str user_id)
  | _, Some user_info =>
      let name := dict_get "name" user_info in
      let email := dict_get "email" user_info in
      if py_truthy name && py_truthy email then
        Ok (py_str name +:+ " (" +:+ py_str email +:+ ")")
      else if py_truthy name then
        short ← py_slice8 user_id;
        Ok (py_str name +:+ " [" +:+ py_str short +:+ "...]")
      else if py_truthy email then
        short ← py_slice8 user_id;
        Ok (py_str email +:+ " [" +:+ py_str short +:+ "...]")
      else Ok (py_str user_id)
  end.

(** ** [extract_users] (lines 102-160) *)

(** Body of the loops at lines 130-138 and 142-150. *)
Definition add_sender (users : gset string) (message : pyval) : gset string :=
  match message with
  | VDict m =>
      let msg_user := msg_sender m in
      if py_truthy msg_user then users ∪ {[ py_str msg_user ]} else users
  | _ => users
  end.

(** Body of the loop at line 109. *)
Definition extract_conv (users : gset string) (conversation : pyval) : result (gset string) :=
  match conversation with
  | VDict c =>
      let user_id := conv_owner c in
      let users := if py_truthy user_id then users ∪ {[ py_str user_id ]} else users in
      messages ← py_iter (dict_get_default "messages" (VList []) c);
      let users := foldl add_sender users messages in
      chat_messages ← py_iter (dict_get_default "chat_messages" (VList []) c);
      Ok (foldl add_sender users chat_messages)
  | _ => Ok users
  end.

Fixpoint extract_users (conversations_data : pyval) : result (list string) :=
  match conversations_data with
  | VList conversations =>
      users ← for_each extract_conv ∅ conversations;
      Ok (py_sorted (elements users))
  | VDict d =>
      on_conversations extract_users
        (Ok (py_sorted (elements (list_to_set (dict_keys d) : gset string)))) d
  | _ => Ok (py_sorted (elements (∅ : gset string)))
  end.

(** ** [get_user_conversation_count] (lines 163-225) *)

(** [str(msg_user) == str(user_id)] under [isinstance(message, dict)]. *)
Definition msg_matches (user_id : pyval) (message : pyval) : bool :=
  match message with
  | VDict m => String.eqb (py_str (msg_sender m)) (py_str user_id)
  | _ => false
  end.

(** The loops at lines 189-198 and 203-212: one increment, then [break]. *)
Fixpoint count_first_match (user_id : pyval) (count : nat) (messages : list pyval) : nat :=
  match messages with
  | [] => count
  | message :: rest =>
      if msg_matches user_id message then count + 1
      else count_first_match user_id count rest
  end.

(** Body of the loop at line 168; [count] is the function's single counter. *)
Definition count_conv (user_id : pyval) (count : nat) (conversation : pyval) : result nat :=
  match conversation with
  | VDict c =>
      if String.eqb (py_str (conv_owner c)) (py_str user_id) then Ok (count + 1)
      else
        messages ← py_iter (dict_get_default "messages" (VList []) c);
        let count := count_first_match user_id count messages in
        if Nat.eqb count 0 then
          chat_messages ← py_iter (dict_get_default "chat_messages" (VList []) c);
          Ok (count_first_match user_id count chat_messages)
        else Ok count
  | _ => Ok count
  end.

(** Lines 217-223: the document is keyed by user. *)
Definition count_keyed (d : pydict) (user_id : pyval) : result nat :=
  match dict_lookup (py_str user_id) d with
  | Some (VList user_data) => Ok (length user_data)
  | Some (VDict user_data) =>
      match dict_lookup "conversations" user_data with
      | Some convs => py_len convs
      | None => Ok 0
      end
  | _ => Ok 0
  end.

Fixpoint get_user_conversation_count (conversations_data user_id : pyval) : result nat :=
  match conversations_data with
  | VList conversations => for_each (count_conv user_id) 0 conversations
  | VDict d =>
      on_conversations (fun convs => get_user_conversation_count convs user_id)
        (count_keyed d user_id) d
  | _ => Ok 0
  end.

(** ** [filter_conversations_by_user] (lines 228-306) *)

(** Body of the loop at line 233; [filtered] is [filtered_conversations]. *)
Definition filter_conv (selected_user : pyval) (filtered : list pyval) (conversation : pyval)
  : result (list pyval) :=
  match conversation with
  | VDict c =>
      if String.eqb (py_str (conv_owner c)) (py_str selected_user) then
        Ok (filtered ++ [conversation])
      else
        messages ← py_iter (dict_get_default "messages" (VList []) c);
        let user_messages := List.filter (msg_matches selected_user) messages in
        if py_truthy (VList user_messages) then
          let filtered_conv := dict_set "messages" (VList user_messages) c in
          Ok (filtered ++ [VDict filtered_conv])
        else
          chat_messages ← py_iter (dict_get_default "chat_messages" (VList []) c);
          let user_chat_messages := List.filter (msg_matches selected_user) chat_messages in
          if py_truthy (VList user_chat_messages) then
            let filtered_conv := dict_set "chat_messages" (VList user_chat_messages) c in
            let filtered_conv :=
              if dict_mem "messages" filtered_conv && negb (py_truthy (VList user_messages))
              then dict_pop "messages" filtered_conv
              else filtered_conv in
            Ok (filtered ++ [VDict filtered_conv])
          else Ok filtered
  | _ => Ok filtered
  end.

(** Lines 298-304: the document is keyed by user. *)
Definition filter_keyed (d : pydict) (selected_user : pyval) : list pyval :=
  match dict_lookup (py_str selected_user) d with
  | Some (VList user_data) => user_data
  | Some (VDict user_data) => [VDict user_data]
  | _ => []
  end.

Fixpoint filter_conversations_by_user (conversations_data selected_user : pyval)
  : result (list pyval) :=
  match conversations_data with
  | VList conversations => for_each (filter_conv selected_user) [] conversations
  | VDict d =>
      on_conversations (fun convs => filter_conversations_by_user convs selected_user)
        (Ok (filter_keyed d selected_user)) d
  | _ => Ok []
  end.

(** ** [load_user_info] (lines 38-79), after [json.load]

    The file is read and parsed by the runtime; what follows is the
    construction of [user_mapping] from the parsed value (lines 44-69). *)

(** [m[k] = v] on a mapping whose values are of any type. *)
Fixpoint assoc_set {V : Type} (k : string) (v : V) (m : list (string * V))
  : list (string * V) :=
  match m with
  | [] => [(k, v)]
  | (k', v') :: m' => if String.eqb k' k then (k, v) :: m' else (k', v') :: assoc_set k v m'
  end.

(** The record stored for a user (lines 53-57 and 63-67). *)
Definition user_record (user : pydict) (user_id : string) : pydict :=
  [("name", dict_get "name" user `or` dict_get "display_name" user
              `or` dict_get "full_name" user);
   ("email", dict_get "email" user `or` dict_get "email_address" user);
   ("id", VStr user_id)].

(** Line 51: the identifier of an entry of the array format. *)
Definition array_user_id (user : pydict) : pyval :=
  dict_get "id" user `or` dict_get "uuid" user `or` dict_get "user_id" user.

(** Body of the loop at line 49 (array format). *)
Definition add_array_user (user_mapping : list (string * pydict)) (user : pyval)
  : list (string * pydict) :=
  match user with
  | VDict u =>
      let user_id := array_user_id u in
      if py_truthy user_id
      then assoc_set (py_str user_id) (user_record u (py_str user_id)) user_mapping
      else user_mapping
  | _ => user_mapping
  end.

(** Body of the loop at line 61 (object format); a key of a JSON object is a
    [str], so [str(user_id)] is the key. *)
Definition add_object_user (user_mapping : list (string * pydict)) (item : string * pyval)
  : list (string * pydict) :=
  match snd item with
  | VDict user_info => assoc_set (fst item) (user_record user_info (fst item)) user_mapping
  | _ => user_mapping
  end.

Definition user_mapping_of_data (data : pyval) : list (string * pydict) :=
  match data with
  | VList users => foldl add_array_user [] users
  | VDict d => foldl add_object_user [] d
  | _ => []
  end.

(** A mapping in which every record is the [user_record] of its key. *)
Definition records_keyed (m : list (string * pydict)) : Prop :=
  forall k info, dict_lookup k m = Some info -> exists user, info = user_record user k.

(** ** [save_filtered_conversations] (lines 309-336), before [json.dump]

    [output_data] as built at lines 312-325.  [export_date] stands for
    [datetime.now().isoformat()].  [Raise] is the [except Exception] branch
    of line 334: nothing is written and the function returns [False]. *)
Definition output_data (filtered_data : list pyval) (selected_user : pyval)
    (user_info_mapping : list (string * pydict)) (export_date : string)
    (include_header : bool) : result pyval :=
  if include_header then
    user_display ← get_user_display_name selected_user user_info_mapping;
    Ok (VDict [("user_id", selected_user);
               ("user_display", VStr user_display);
               ("export_date", VStr export_date);
               ("conversation_count", VInt (Z.of_nat (length filtered_data)));
               ("conversations", VList filtered_data)])
  else Ok (VList filtered_data).

(** ** The output file name in [main] (lines 424-448) *)

Fixpoint str_filter (f : ascii -> bool) (s : string) : string :=
  match s with
  | EmptyString => EmptyString
  | String c s' => if f c then String c (str_filter f s') else str_filter f s'
  end.

Fixpoint str_map (f : ascii -> ascii) (s : string) : string :=
  match s with
  | EmptyString => EmptyString
  | String c s' => String (f c) (str_map f s')
  end.

(** [c.isalnum()] on the code points below 256: the digits and letters of
    ASCII, the letters of Latin-1, and its superscript digits and fractions. *)
Definition py_isalnum (c : ascii) : bool :=
  let n := N_of_ascii c in
  ((48 <=? n) && (n <=? 57) || (65 <=? n) && (n <=? 90) || (97 <=? n) && (n <=? 122)
   || (n =? 170) || (n =? 178) || (n =? 179) || (n =? 181) || (n =? 185) || (n =? 186)
   || (188 <=? n) && (n <=? 190) || (192 <=? n) && (n <=? 214)
   || (216 <=? n) && (n <=? 246) || (248 <=? n) && (n <=? 255))%N.

(** [c.isalnum() or c in "-_"] *)
Definition safe_char (c : ascii) : bool :=
  py_isalnum c || Ascii.eqb c "-" || Ascii.eqb c "_".

(** [c.lower()] on the code points below 256. *)
Definition py_lower_char (c : ascii) : ascii :=
  let n := N_of_ascii c in
  if ((65 <=? n) && (n <=? 90) || (192 <=? n) && (n <=? 214)
      || (216 <=? n) && (n <=? 222))%N
  then ascii_of_N (n + 32) else c.

(** [s.lower()] *)
Definition py_lower (s : string) : string := str_map py_lower_char s.

(** [s.replace(' ', '_')] *)
Definition replace_spaces (s : string) : string :=
  str_map (fun c => if Ascii.eqb c " " then "_"%char else c) s.

(** [s.endswith(suffix)] *)
Fixpoint str_endswith (s suffix : string) : bool :=
  String.eqb s suffix
  || match s with
     | EmptyString => false
     | String _ s' => str_endswith s' suffix
     end.

(** Lines 427-439.  [selected_user] is an item of the list [extract_users]
    returned, a [str]; [timestamp] stands for
    [datetime.now().strftime("%Y%m%d_%H%M%S")].  [None] is the
    [AttributeError] of [user_info.get('name', '').replace] on a name that
    is not a [str], which ends [main] in the handler of line 478. *)
Definition default_output_file (selected_user : string)
    (user_info_mapping : list (string * pydict)) (timestamp : string) : option string :=
  let by_user_id :=
    "claude_conversations_" +:+ str_filter safe_char selected_user
      +:+ "_" +:+ timestamp +:+ ".json" in
  match user_info_mapping, dict_lookup selected_user user_info_mapping with
  | _ :: _, Some user_info =>
      match dict_get_default "name" (VStr EmptyString) user_info with
      | VStr name =>
          let name := replace_spaces name in
          if py_truthy (VStr name)
          then Some ("claude_conversations_" +:+ str_filter safe_char name
                       +:+ "_" +:+ timestamp +:+ ".json")
          else Some by_user_id
      | _ => None
      end
  | _, _ => Some by_user_id
  end.

(** Lines 442-448: the name typed by the operator, stripped, replaces the
    default when it is not empty, and [.json] is appended unless the name
    already ends with it in some letter case. *)
Definition final_output_file (output_file custom_output : string) : string :=
  let output_file :=
    if py_truthy (VStr custom_output) then custom_output else output_file in
  if negb (str_endswith (py_lower output_file) ".json")
  then output_file +:+ ".json" else output_file.

(** ** Specification-level definitions *)

(** A value the [for] loops can iterate. *)
Definition py_iterable (v : pyval) : bool :=
  match v with
  | VList _ | VStr _ | VDict _ => true
  | _ => false
  end.

(** A conversation whose [messages] and [chat_messages], where present, can
    be iterated; an entry of the document that is not a [dict] is skipped by
    the loops and needs nothing. *)
Definition conv_iterable (conversation : pyval) : bool :=
  match conversation with
  | VDict c =>
      py_iterable (dict_get_default "messages" (VList []) c)
      && py_iterable (dict_get_default "chat_messages" (VList []) c)
  | _ => true
  end.

(** The filter of one conversation in closed form, as lines 234-291 compute
    it where no loop raises.  The comparisons are those of the code: the
    string form of the resolved value against the string form of the target,
    so an absent owner or sender, whose string form is [None], matches the
    target ["None"].  The entries of the list under key [k] that pass the
    test of lines 262 and 281: *)
Definition matching_entries (k : string) (target : pyval) (c : pydict) : list pyval :=
  match dict_lookup k c with
  | Some (VList entries) => List.filter (msg_matches target) entries
  | _ => []
  end.

(** and the record emitted for one conversation, if any: the conversation
    itself when the string form of its owner is that of the target (line
    249); else a copy with [messages] replaced by the entries that pass the
    test when there are some; else a copy with [chat_messages] replaced by
    the entries that pass the test and [messages] removed when there are
    some; else nothing. *)
Definition filtered_record (target : pyval) (conversation : pyval) : option pyval :=
  match conversation with
  | VDict c =>
      if String.eqb (py_str (conv_owner c)) (py_str target) then Some conversation
      else
        match matching_entries "messages" target c,
              matching_entries "chat_messages" target c with
        | m :: ms, _ => Some (VDict (dict_set "messages" (VList (m :: ms)) c))
        | [], m :: ms =>
            Some (VDict (dict_pop "messages" (dict_set "chat_messages" (VList (m :: ms)) c)))
        | [], [] => None
        end
  | _ => None
  end.

(** Some entry of the list under key [k] resolves to the target. *)
Definition has_match (k : string) (target : pyval) (c : pydict) : bool :=
  match matching_entries k target c with
  | [] => false
  | _ :: _ => true
  end.

(** A conversation on which the filter's loops meet no value they cannot
    iterate: the owner is the target (no loop runs); or [messages] can be
    iterated and either holds a message of the target or [chat_messages] can
    be iterated too. *)
Definition conv_filterable (target : pyval) (conversation : pyval) : bool :=
  match conversation with
  | VDict c =>
      String.eqb (py_str (conv_owner c)) (py_str target)
      || py_iterable (dict_get_default "messages" (VList []) c)
         && match matching_entries "messages" target c with
            | [] => py_iterable (dict_get_default "chat_messages" (VList []) c)
            | _ :: _ => true
            end
  | _ => true
  end.

(** A document on which no loop of the traversals meets a value it cannot
    iterate. *)
Fixpoint doc_iterable (conversations_data : pyval) : bool :=
  match conversations_data with
  | VList conversations => forallb conv_iterable conversations
  | VDict d => on_conversations doc_iterable true d
  | _ => true
  end.

(** [isinstance(v, dict)] *)
Definition is_dict (v : pyval) : bool :=
  match v with
  | VDict _ => true
  | _ => false
  end.

(** The conversations the counter counts whatever the count so far: the
    owner is the target or a message is the target's. *)
Definition owner_or_message_match (target : pyval) (conversation : pyval) : bool :=
  match conversation with
  | VDict c =>
      String.eqb (py_str (conv_owner c)) (py_str target) || has_match "messages" target c
  | _ => false
  end.

(** The first conversation in which the target appears at all has it in
    [chat_messages] only. *)
Fixpoint chat_match_first (target : pyval) (conversations : list pyval) : bool :=
  match conversations with
  | [] => false
  | VDict c :: rest =>
      if owner_or_message_match target (VDict c) then false
      else if has_match "chat_messages" target c then true
      else chat_match_first target rest
  | _ :: rest => chat_match_first target rest
  end.

(** A user that extraction finds in one conversation: its truthy owner, or
    the truthy sender of an entry of [messages] or [chat_messages]. *)
Definition sender_in (k : string) (user : string) (c : pydict) : Prop :=
  exists entries m, dict_lookup k c = Some (VList entries) /\ VDict m ∈ entries /\
    py_truthy (msg_sender m) = true /\ py_str (msg_sender m) = user.

Definition user_of_conv (user : string) (c : pydict) : Prop :=
  (py_truthy (conv_owner c) = true /\ py_str (conv_owner c) = user)
  \/ sender_in "messages" user c \/ sender_in "chat_messages" user c.

(** ** Example documents *)

(** [[{"user_id": "u"}, {"chat_messages": [{"sender": "u"}]}]] *)
Definition owner_then_chat : pyval :=
  VList [VDict [("user_id", VStr "u")];
         VDict [("chat_messages", VList [VDict [("sender", VStr "u")]])]].

(** [{"u6": [{"a": 1}, {"a": 2}], "u7": {"conversations": [{}]},
      "u8": {"title": "t"}, "u9": 3}] *)
Definition keyed_by_user : pydict :=
  [("u6", VList [VDict [("a", VInt 1)]; VDict [("a", VInt 2)]]);
   ("u7", VDict [("conversations", VList [VDict []])]);
   ("u8", VDict [("title", VStr "t")]);
   ("u9", VInt 3)].

(** [[{"title": "t"}, {"messages": [{"sender": "None"}]}]] *)
Definition ownerless : pyval :=
  VList [VDict [("title", VStr "t")];
         VDict [("messages", VList [VDict [("sender", VStr "None")]])]].

(** [[{"title": "t", "messages": [{"sender": "None", "text": "a"},
                                    {"sender": "u1", "text": "b"}]},
      {"user_id": "u1", "messages": [{"sender": "None", "text": "c"},
                                     {"text": "d"}]}]] *)
Definition absent_ids : pyval :=
  VList [VDict [("title", VStr "t");
                ("messages", VList [VDict [("sender", VStr "None"); ("text", VStr "a")];
                                    VDict [("sender", VStr "u1"); ("text", VStr "b")]])];
         VDict [("user_id", VStr "u1");
                ("messages", VList [VDict [("sender", VStr "None"); ("text", VStr "c")];
                                    VDict [("text", VStr "d")]])]].

(** [[{"messages": null}]] *)
Definition null_messages : pyval := VList [VDict [("messages", VNone)]].

(** ** Reasoning principles *)

(** Induction on a Python value, with the items of a [list] and the values of
    a [dict] as premises. *)
Definition pyval_ind (P : pyval -> Prop)
    (HNone : P VNone) (HBool : forall b, P (VBool b)) (HInt : forall z, P (VInt z))
    (HFloat : forall f, P (VFloat f)) (HStr : forall s, P (VStr s))
    (HList : forall l, Forall P l -> P (VList l))
    (HDict : forall d, Forall (fun kv => P (snd kv)) d -> P (VDict d))
  : forall v, P v :=
  fix go (v : pyval) : P v :=
    match v with
    | VNone => HNone
    | VBool b => HBool b
    | VInt z => HInt z
    | VFloat f => HFloat f
    | VStr s => HStr s
    | VList l =>
        HList l ((fix items (l : list pyval) : Forall P l :=
                    match l with
                    | [] => List.Forall_nil P
                    | x :: l' => List.Forall_cons P x l' (go x) (items l')
                    end) l)
    | VDict d =>
        HDict d ((fix fields (d : pydict) : Forall (fun kv => P (snd kv)) d :=
                    match d with
                    | [] => List.Forall_nil _
                    | kv :: d' => List.Forall_cons _ kv d' (go (snd kv)) (fields d')
                    end) d)
    end.

Lemma on_conversations_eq {A : Type} (recurse : pyval -> A) (other : A) (d : pydict) :
  on_conversations recurse other d =
  match dict_lookup "conversations" d with
  | Some convs => recurse convs
  | None => other
  end.
Proof.
  induction d as [|[k v] d IH]; simpl; [done|].
  destruct (String.eqb k "conversations"); done.
Qed.

Lemma dict_lookup_In {V : Type} (k : string) (v : V) (d : list (string * V)) :
  dict_lookup k d = Some v -> (k, v) ∈ d.
Proof.
  induction d as [|[k' v'] d IH]; simpl; [done|].
  destruct (String.eqb_spec k' k) as [->|Hne].
  - intros [= ->]. by left.
  - intros Hd. right. by apply IH.
Qed.

(** The three traversals look at a document in the same way: a [list], a
    [dict] holding [conversations] (recurse), a [dict] keyed by user, or
    anything else.  Induction on that shape. *)
Lemma document_ind (P : pyval -> Prop) :
  (forall conversations, P (VList conversations)) ->
  (forall d convs, dict_lookup "conversations" d = Some convs -> P convs -> P (VDict d)) ->
  (forall d, dict_lookup "conversations" d = None -> P (VDict d)) ->
  P VNone -> (forall b, P (VBool b)) -> (forall z, P (VInt z)) ->
  (forall f, P (VFloat f)) -> (forall s, P (VStr s)) ->
  forall data, P data.
Proof.
  intros HL HR HK HN HB HI HF HS data.
  induction data as [| | | | |l _|d IH] using pyval_ind; auto.
  destruct (dict_lookup "conversations" d) as [convs|] eqn:Hd; [|by apply HK].
  apply (HR d convs Hd).
  apply dict_lookup_In in Hd.
  rewrite Forall_forall in IH. by apply (IH _ Hd).
Qed.

Lemma extract_users_dict d :
  extract_users (VDict d) =
  match dict_lookup "conversations" d with
  | Some convs => extract_users convs
  | None => Ok (py_sorted (elements (list_to_set (dict_keys d) : gset string)))
  end.
Proof. simpl. apply on_conversations_eq. Qed.

Lemma count_dict d user_id :
  get_user_conversation_count (VDict d) user_id =
  match dict_lookup "conversations" d with
  | Some convs => get_user_conversation_count convs user_id
  | None => count_keyed d user_id
  end.
Proof. simpl. apply on_conversations_eq. Qed.

Lemma filter_dict d selected_user :
  filter_conversations_by_user (VDict d) selected_user =
  match dict_lookup "conversations" d with
  | Some convs => filter_conversations_by_user convs selected_user
  | None => Ok (filter_keyed d selected_user)
  end.
Proof. simpl. apply on_conversations_eq. Qed.

(** ** The display name resolver *)

(** A slice [s[:n]] of a string with at most [n] characters is the string. *)
Lemma substring_short (n : nat) (s : string) :
  String.length s <= n -> substring 0 n s = s.
Proof.
  revert n. induction s as [|c s IH]; intros [|n] Hlen; simpl in *; try done; try lia.
  f_equal. apply IH. lia.
Qed.

(** C7.  When the identifier's string form is not a key of the identity
    mapping the label is that string form; otherwise, with [name] and [email]
    the two fields of its record (a field is present when its value is
    truthy, that is neither missing, [None] nor empty), the label is
    [name (email)] when both are present and the identifier's string form
    when neither is; and for an identifier that is a string [s] it is
    [name [first 8 characters of s...]] when only the name is present and
    [email [first 8 characters of s...]] when only the email is.  The
    truncated forms are returned, not raised, and for a string shorter than 8
    characters they hold all of [s]. *)
Theorem display_name_cases (user_id : pyval) (user_info_mapping : list (string * pydict)) :
  (dict_lookup (py_str user_id) user_info_mapping = None ->
   get_user_display_name user_id user_info_mapping = Ok (py_str user_id)) /\
  (forall user_info, dict_lookup (py_str user_id) user_info_mapping = Some user_info ->
     let name := dict_get "name" user_info in
     let email := dict_get "email" user_info in
     (py_truthy name = true -> py_truthy email = true ->
      get_user_display_name user_id user_info_mapping =
        Ok (py_str name +:+ " (" +:+ py_str email +:+ ")")) /\
     (py_truthy name = false -> py_truthy email = false ->
      get_user_display_name user_id user_info_mapping = Ok (py_str user_id)) /\
     (forall s, user_id = VStr s ->
        (py_truthy name = true -> py_truthy email = false ->
         get_user_display_name user_id user_info_mapping =
           Ok (py_str name +:+ " [" +:+ substring 0 8 s +:+ "...]") /\
         (String.length s < 8 ->
          get_user_display_name user_id user_info_mapping =
            Ok (py_str name +:+ " [" +:+ s +:+ "...]"))) /\
        (py_truthy name = false -> py_truthy email = true ->
         get_user_display_name user_id user_info_mapping =
           Ok (py_str email +:+ " [" +:+ substring 0 8 s +:+ "...]") /\
         (String.length s < 8 ->
          get_user_display_name user_id user_info_mapping =
            Ok (py_str email +:+ " [" +:+ s +:+ "...]"))))).
Proof.
  split.
  - intros Hd. unfold get_user_display_name.
    destruct user_info_mapping as [|kv rest]; [done|]. by rewrite Hd.
  - intros user_info Hd name email.
    assert (Hun :
      get_user_display_name user_id user_info_mapping =
      if py_truthy name && py_truthy email
      then Ok (py_str name +:+ " (" +:+ py_str email +:+ ")")
      else if py_truthy name
           then short ← py_slice8 user_id;
                Ok (py_str name +:+ " [" +:+ py_str short +:+ "...]")
           else if py_truthy email
                then short ← py_slice8 user_id;
                     Ok (py_str email +:+ " [" +:+ py_str short +:+ "...]")
                else Ok (py_str user_id)).
    { unfold get_user_display_name.
      destruct user_info_mapping as [|kv rest]; [done|].
      by rewrite Hd. }
    split; [|split].
    + intros Hn He. by rewrite Hun, Hn, He.
    + intros Hn He. by rewrite Hun, Hn, He.
    + intros s ->. split; intros Hn He; rewrite Hun, Hn, He; simpl.
      all: split; [done|]; intros Hlen; by rewrite substring_short by lia.
Qed.

Lemma display_name_cases_witness :
  get_user_display_name (VStr "u-17")
    [("u-17", [("name", VStr "Ada"); ("email", VNone); ("id", VStr "u-17")])]
  = Ok "Ada [u-17...]" /\
  get_user_display_name (VStr "0f8fad5b-d9cb-469f-a165-70867728950e")
    [("0f8fad5b-d9cb-469f-a165-70867728950e",
      [("name", VNone); ("email", VStr "ada@example.org")])]
  = Ok "ada@example.org [0f8fad5b...]" /\
  get_user_display_name (VStr "u-17")
    [("u-17", [("name", VStr "Ada"); ("email", VStr "ada@example.org")])]
  = Ok "Ada (ada@example.org)" /\
  get_user_display_name (VInt 17) [("u-17", [("name", VStr "Ada")])] = Ok "17".
Proof.
  split; [|split; [|split]].
  - destruct (display_name_cases (VStr "u-17")
                [("u-17", [("name", VStr "Ada"); ("email", VNone); ("id", VStr "u-17")])])
      as [_ Hcases].
    destruct (Hcases _ eq_refl) as (_ & _ & Hstr).
    destruct (Hstr "u-17" eq_refl) as [Hname _].
    destruct (Hname eq_refl eq_refl) as [_ Hshort].
    apply Hshort. simpl. lia.
  - destruct (display_name_cases (VStr "0f8fad5b-d9cb-469f-a165-70867728950e")
                [("0f8fad5b-d9cb-469f-a165-70867728950e",
                  [("name", VNone); ("email", VStr "ada@example.org")])])
      as [_ Hcases].
    destruct (Hcases _ eq_refl) as (_ & _ & Hstr).
    destruct (Hstr _ eq_refl) as [_ Hemail].
    destruct (Hemail eq_refl eq_refl) as [Hlong _].
    exact Hlong.
  - destruct (display_name_cases (VStr "u-17")
                [("u-17", [("name", VStr "Ada"); ("email", VStr "ada@example.org")])])
      as [_ Hcases].
    destruct (Hcases _ eq_refl) as (Hboth & _).
    exact (Hboth eq_refl eq_refl).
  - destruct (display_name_cases (VInt 17) [("u-17", [("name", VStr "Ada")])])
      as [Habsent _].
    exact (Habsent eq_refl).
Defined.

(** An identifier that is not a string cannot be sliced: the truncated
    forms are for string identifiers, the ones [extract_users] returns. *)
Lemma display_name_int_identifier :
  get_user_display_name (VInt 17) [("17", [("name", VStr "Ada")])] = Raise TypeError /\
  get_user_display_name (VInt 17)
    [("17", [("name", VStr "Ada"); ("email", VStr "ada@example.org")])]
  = Ok "Ada (ada@example.org)".
Proof. by vm_compute. Qed.

(** ** Documents keyed by user *)

(** C8.  For a [dict] document without a [conversations] key and any target:
    the count is the length of the list stored under the target's string
    form; or the length of that value's [conversations] list when the value
    is a [dict] holding one; and 0 when the key is missing, when the value is
    a [dict] without [conversations], or when it is neither list nor dict. *)
Theorem count_keyed_by_user (d : pydict) (user_id : pyval) :
  dict_lookup "conversations" d = None ->
  (dict_lookup (py_str user_id) d = None ->
   get_user_conversation_count (VDict d) user_id = Ok 0) /\
  (forall user_data, dict_lookup (py_str user_id) d = Some (VList user_data) ->
   get_user_conversation_count (VDict d) user_id = Ok (length user_data)) /\
  (forall user_data convs,
   dict_lookup (py_str user_id) d = Some (VDict user_data) ->
   dict_lookup "conversations" user_data = Some (VList convs) ->
   get_user_conversation_count (VDict d) user_id = Ok (length convs)) /\
  (forall user_data,
   dict_lookup (py_str user_id) d = Some (VDict user_data) ->
   dict_lookup "conversations" user_data = None ->
   get_user_conversation_count (VDict d) user_id = Ok 0) /\
  (forall user_data, dict_lookup (py_str user_id) d = Some user_data ->
   (forall l, user_data <> VList l) -> (forall m, user_data <> VDict m) ->
   get_user_conversation_count (VDict d) user_id = Ok 0).
Proof.
  intros Hshape. rewrite count_dict, Hshape. unfold count_keyed.
  split; [|split; [|split; [|split]]].
  - by intros ->.
  - by intros user_data ->.
  - by intros user_data convs -> ->.
  - by intros user_data -> ->.
  - intros user_data -> Hl Hm. destruct user_data; try done.
    + by destruct (Hl l).
    + by destruct (Hm d0).
Qed.

Lemma count_keyed_by_user_witness :
  get_user_conversation_count (VDict keyed_by_user) (VStr "u5") = Ok 0 /\
  get_user_conversation_count (VDict keyed_by_user) (VStr "u6") = Ok 2 /\
  get_user_conversation_count (VDict keyed_by_user) (VStr "u7") = Ok 1 /\
  get_user_conversation_count (VDict keyed_by_user) (VStr "u8") = Ok 0 /\
  get_user_conversation_count (VDict keyed_by_user) (VStr "u9") = Ok 0.
Proof.
  split; [|split; [|split; [|split]]].
  - destruct (count_keyed_by_user keyed_by_user (VStr "u5") eq_refl) as (Habsent & _).
    exact (Habsent eq_refl).
  - destruct (count_keyed_by_user keyed_by_user (VStr "u6") eq_refl) as (_ & Hlist & _).
    exact (Hlist _ eq_refl).
  - destruct (count_keyed_by_user keyed_by_user (VStr "u7") eq_refl) as (_ & _ & Hsub & _).
    exact (Hsub _ _ eq_refl eq_refl).
  - destruct (count_keyed_by_user keyed_by_user (VStr "u8") eq_refl) as (_ & _ & _ & Hnosub & _).
    exact (Hnosub _ eq_refl eq_refl).
  - destruct (count_keyed_by_user keyed_by_user (VStr "u9") eq_refl) as (_ & _ & _ & _ & Hother).
    apply (Hother _ eq_refl); intros ?; discriminate.
Defined.

(** When the [conversations] value under the user's key is not a list, the
    count is whatever [len] makes of it. *)
Lemma count_keyed_sub_value_not_list :
  get_user_conversation_count
    (VDict [("u7", VDict [("conversations", VStr "abc")])]) (VStr "u7") = Ok 3 /\
  get_user_conversation_count
    (VDict [("u7", VDict [("conversations", VNone)])]) (VStr "u7") = Raise TypeError.
Proof. by vm_compute. Qed.

(** C9.  For a [dict] document without a [conversations] key and any target:
    the filter returns the value stored under the target's string form as it
    is when that value is a list, a one-element list holding it when it is a
    [dict], and the empty list, without raising, when the key is missing or
    the value is of another type. *)
Theorem filter_keyed_by_user (d : pydict) (selected_user : pyval) :
  dict_lookup "conversations" d = None ->
  (forall user_data, dict_lookup (py_str selected_user) d = Some (VList user_data) ->
   filter_conversations_by_user (VDict d) selected_user = Ok user_data) /\
  (forall user_data, dict_lookup (py_str selected_user) d = Some (VDict user_data) ->
   filter_conversations_by_user (VDict d) selected_user = Ok [VDict user_data]) /\
  (dict_lookup (py_str selected_user) d = None ->
   filter_conversations_by_user (VDict d) selected_user = Ok []) /\
  (forall user_data, dict_lookup (py_str selected_user) d = Some user_data ->
   (forall l, user_data <> VList l) -> (forall m, user_data <> VDict m) ->
   filter_conversations_by_user (VDict d) selected_user = Ok []).
Proof.
  intros Hshape. rewrite filter_dict, Hshape. unfold filter_keyed.
  split; [|split; [|split]].
  - by intros user_data ->.
  - by intros user_data ->.
  - by intros ->.
  - intros user_data -> Hl Hm. destruct user_data; try done.
    + by destruct (Hl l).
    + by destruct (Hm d0).
Qed.

Lemma filter_keyed_by_user_witness :
  filter_conversations_by_user (VDict keyed_by_user) (VStr "u6")
    = Ok [VDict [("a", VInt 1)]; VDict [("a", VInt 2)]] /\
  filter_conversations_by_user (VDict keyed_by_user) (VStr "u8")
    = Ok [VDict [("title", VStr "t")]] /\
  filter_conversations_by_user (VDict keyed_by_user) (VStr "u5") = Ok [] /\
  filter_conversations_by_user (VDict keyed_by_user) (VStr "u9") = Ok [].
Proof.
  split; [|split; [|split]].
  - destruct (filter_keyed_by_user keyed_by_user (VStr "u6") eq_refl) as (Hlist & _).
    exact (Hlist _ eq_refl).
  - destruct (filter_keyed_by_user keyed_by_user (VStr "u8") eq_refl) as (_ & Hdict & _).
    exact (Hdict _ eq_refl).
  - destruct (filter_keyed_by_user keyed_by_user (VStr "u5") eq_refl) as (_ & _ & Habsent & _).
    exact (Habsent eq_refl).
  - destruct (filter_keyed_by_user keyed_by_user (VStr "u9") eq_refl) as (_ & _ & _ & Hother).
    apply (Hother _ eq_refl); intros ?; discriminate.
Defined.

(** C10.  For a [dict] document without a [conversations] key whose value
    under the target's string form is a [dict] that has no [conversations]
    key either, the count is 0 while the filter returns the one-element list
    holding that [dict]: the count and the number of filtered conversations
    differ. *)
Theorem keyed_dict_count_filter_differ (d user_data : pydict) (user_id : pyval) :
  dict_lookup "conversations" d = None ->
  dict_lookup (py_str user_id) d = Some (VDict user_data) ->
  dict_lookup "conversations" user_data = None ->
  get_user_conversation_count (VDict d) user_id = Ok 0 /\
  filter_conversations_by_user (VDict d) user_id = Ok [VDict user_data] /\
  (forall n filtered,
     get_user_conversation_count (VDict d) user_id = Ok n ->
     filter_conversations_by_user (VDict d) user_id = Ok filtered ->
     n <> length filtered).
Proof.
  intros Hshape Huser Hsub.
  rewrite count_dict, filter_dict, Hshape. unfold count_keyed, filter_keyed.
  rewrite Huser, Hsub. do 2 (split; [done|]).
  by intros n filtered [= <-] [= <-].
Qed.

Lemma keyed_dict_count_filter_differ_witness :
  get_user_conversation_count (VDict [("u7", VDict [("title", VStr "t")])]) (VStr "u7") = Ok 0 /\
  filter_conversations_by_user (VDict [("u7", VDict [("title", VStr "t")])]) (VStr "u7")
    = Ok [VDict [("title", VStr "t")]].
Proof.
  destruct (keyed_dict_count_filter_differ
              [("u7", VDict [("title", VStr "t")])] [("title", VStr "t")] (VStr "u7")
              eq_refl eq_refl eq_refl) as (Hcount & Hfilter & _).
  by split.
Defined.

(** ** Counting against filtering on a list document *)

(** The counter never steps by more than one per conversation. *)
Lemma count_first_match_step user_id count messages :
  count_first_match user_id count messages =
  if existsb (msg_matches user_id) messages then count + 1 else count.
Proof.
  induction messages as [|m ms IH]; simpl; [done|].
  by destruct (msg_matches user_id m).
Qed.

Lemma count_conv_at_most_one user_id count conversation count' :
  count_conv user_id count conversation = Ok count' ->
  count' = count \/ count' = count + 1.
Proof.
  destruct conversation as [| | | | | |c]; simpl; try (intros [= <-]; by left).
  destruct (String.eqb _ _); [intros [= <-]; by right|].
  destruct (py_iter (dict_get_default "messages" _ c)) as [ms|e]; simpl; [|done].
  rewrite count_first_match_step.
  destruct (existsb _ ms); simpl.
  - replace (count + 1 =? 0) with false by (symmetry; apply Nat.eqb_neq; lia).
    intros [= <-]. by right.
  - destruct (count =? 0) eqn:Hc; [|intros [= <-]; by left].
    destruct (py_iter (dict_get_default "chat_messages" _ c)) as [cms|e]; simpl; [|done].
    rewrite count_first_match_step.
    destruct (existsb _ cms); intros [= <-]; auto.
Qed.

(** C1.  On the list document [owner_then_chat] with target ["u"] the count
    is 1 while the filter returns two conversations: the first is owned by
    the target, the second holds a [chat_messages] entry sent by the target,
    which the counter skips because its test [count == 0] reads the running
    total of the whole document. *)
Theorem count_differs_from_filter_length :
  get_user_conversation_count owner_then_chat (VStr "u") = Ok 1 /\
  filter_conversations_by_user owner_then_chat (VStr "u") =
    Ok [VDict [("user_id", VStr "u")];
        VDict [("chat_messages", VList [VDict [("sender", VStr "u")]])]].
Proof. by vm_compute. Qed.

(** C2.  The second conversation of [owner_then_chat] has no owner and no
    [messages], has not been counted, and has a [chat_messages] entry that
    resolves to the target ["u"]; it adds 1 to a count of 0 but nothing to a
    count of 1, so after a conversation owned by the target it is not
    counted. *)
Theorem uncounted_chat_match_adds_nothing :
  let conversation := VDict [("chat_messages", VList [VDict [("sender", VStr "u")]])] in
  existsb (msg_matches (VStr "u")) [VDict [("sender", VStr "u")]] = true /\
  count_conv (VStr "u") 0 conversation = Ok 1 /\
  count_conv (VStr "u") 1 conversation = Ok 1 /\
  get_user_conversation_count owner_then_chat (VStr "u") = Ok 1.
Proof. by vm_compute. Qed.

(** ** Ownerless conversations *)

(** C3.  The first conversation of [ownerless] has none of the candidate
    fields: its owner resolves to [None] and extraction records no user for
    it; the only user of the document, ["None"], is the sender of a message
    of the second conversation.  Yet with the target ["None"] the counter
    counts both conversations and the filter returns both verbatim, on the
    comparison of the string form of the absent owner. *)
Theorem ownerless_attributed_to_None :
  conv_owner [("title", VStr "t")] = VNone /\
  extract_conv ∅ (VDict [("title", VStr "t")]) = Ok ∅ /\
  extract_users ownerless = Ok ["None"] /\
  get_user_conversation_count ownerless (VStr "None") = Ok 2 /\
  filter_conversations_by_user ownerless (VStr "None") =
    Ok [VDict [("title", VStr "t")];
        VDict [("messages", VList [VDict [("sender", VStr "None")]])]].
Proof. by vm_compute. Qed.

(** ** Exceptions *)

(** C4.  On the list document [null_messages] the three traversals raise
    [TypeError]: [conversation.get('messages', [])] is [None], which the
    [for] loop cannot iterate. *)
Theorem null_messages_raises :
  extract_users null_messages = Raise TypeError /\
  get_user_conversation_count null_messages (VStr "u") = Raise TypeError /\
  filter_conversations_by_user null_messages (VStr "u") = Raise TypeError.
Proof. by vm_compute. Qed.

(** ** The filter on a list document *)

Lemma dict_lookup_set_ne (k k' : string) (v : pyval) (d : pydict) :
  k <> k' -> dict_lookup k (dict_set k' v d) = dict_lookup k d.
Proof.
  intros Hne. induction d as [|[k0 v0] d IH]; simpl.
  - by destruct (String.eqb_spec k' k) as [->|].
  - destruct (String.eqb_spec k0 k') as [->|Hk0]; simpl.
    + destruct (String.eqb_spec k' k) as [->|]; done.
    + by rewrite IH.
Qed.

Lemma dict_pop_absent (k : string) (d : pydict) :
  dict_lookup k d = None -> dict_pop k d = d.
Proof.
  induction d as [|[k0 v0] d IH]; simpl; [done|].
  destruct (String.eqb k0 k); simpl; [done|].
  intros Hd. f_equal. by apply IH.
Qed.

(** The keys of a [dict] and the characters of a [str] are strings, so none
    of them is a message of the target. *)
Lemma filter_matches_strings (target : pyval) (l : list string) :
  List.filter (msg_matches target) (map VStr l) = [].
Proof. by induction l. Qed.

Lemma py_iter_matching (target : pyval) (v : pyval) :
  py_iterable v = true ->
  exists items, py_iter v = Ok items /\
    List.filter (msg_matches target) items =
    match v with VList entries => List.filter (msg_matches target) entries | _ => [] end.
Proof.
  destruct v as [| | | |s|l|d]; simpl; try done; intros _; eexists; (split; [done|]).
  - rewrite <- (filter_matches_strings target
                  (map (fun c => String c EmptyString) (list_ascii_of_string s))).
    by rewrite map_map.
  - done.
  - apply filter_matches_strings.
Qed.

Lemma matching_entries_get (k : string) (target : pyval) (c : pydict) :
  matching_entries k target c =
  match dict_get_default k (VList []) c with
  | VList entries => List.filter (msg_matches target) entries
  | _ => []
  end.
Proof.
  unfold matching_entries, dict_get_default.
  by destruct (dict_lookup k c) as [[]|].
Qed.

Lemma py_iter_not_iterable (v : pyval) :
  py_iterable v = false -> py_iter v = Raise TypeError.
Proof. by destruct v. Qed.

Lemma conv_iterable_filterable (target : pyval) (conversation : pyval) :
  conv_iterable conversation = true -> conv_filterable target conversation = true.
Proof.
  destruct conversation as [| | | | | |c]; simpl; try done.
  intros [-> ->]%andb_prop. simpl.
  rewrite orb_true_iff. right. by destruct (matching_entries _ _ _).
Qed.

(** One turn of the filter's loop, on every conversation: the record of
    [filtered_record] is appended when the conversation is filterable, and
    [TypeError] is raised otherwise. *)
Lemma filter_conv_record (target : pyval) (filtered : list pyval) (conversation : pyval) :
  filter_conv target filtered conversation =
  if conv_filterable target conversation
  then Ok (filtered ++ option_list (filtered_record target conversation))
  else Raise TypeError.
Proof.
  destruct conversation as [| | | | | |c]; simpl; rewrite ?app_nil_r; try done.
  destruct (String.eqb _ _); [done|]. simpl.
  rewrite !matching_entries_get.
  destruct (py_iterable (dict_get_default "messages" _ c)) eqn:Hm; simpl;
    [|by rewrite (py_iter_not_iterable _ Hm)].
  destruct (py_iter_matching target _ Hm) as (ms & -> & Hms).
  simpl. rewrite Hms.
  destruct (match dict_get_default "messages" _ c with VList _ => _ | _ => _ end) as [|m um];
    [|done].
  simpl.
  destruct (py_iterable (dict_get_default "chat_messages" _ c)) eqn:Hc; simpl;
    [|by rewrite (py_iter_not_iterable _ Hc)].
  destruct (py_iter_matching target _ Hc) as (cms & -> & Hcms).
  simpl. rewrite Hcms.
  destruct (match dict_get_default "chat_messages" _ c with VList _ => _ | _ => _ end)
    as [|cm ucm]; simpl; [by rewrite app_nil_r|].
  unfold dict_mem. rewrite dict_lookup_set_ne by done.
  destruct (dict_lookup "messages" c) eqn:Hd; simpl; [done|].
  rewrite dict_pop_absent; [done|]. by rewrite dict_lookup_set_ne.
Qed.

Lemma for_each_filter_conv (target : pyval) (conversations filtered : list pyval) :
  for_each (filter_conv target) filtered conversations =
  if forallb (conv_filterable target) conversations
  then Ok (filtered ++ omap (filtered_record target) conversations)
  else Raise TypeError.
Proof.
  revert filtered. induction conversations as [|c cs IH]; intros filtered; simpl.
  - by rewrite app_nil_r.
  - rewrite filter_conv_record.
    destruct (conv_filterable target c); simpl; [|done].
    rewrite IH. destruct (forallb _ cs); [|done].
    rewrite <- app_assoc. by destruct (filtered_record target c).
Qed.

(** Outside that domain the filter raises. *)
Lemma filter_list_document_raises (conversations : list pyval) (selected_user : pyval) :
  forallb (conv_filterable selected_user) conversations = false ->
  filter_conversations_by_user (VList conversations) selected_user = Raise TypeError.
Proof. intros Hf. simpl. by rewrite for_each_filter_conv, Hf. Qed.

(** The filter in closed form.  On a list document whose conversations are
    filterable (no loop meets a [messages] or [chat_messages] value it cannot
    iterate), the filter returns, in document order, the records that
    [filtered_record] gives, with the comparisons of the code: the
    conversation verbatim when the string form of its owner, [None] for an
    absent one, is that of the target; otherwise a copy with [messages]
    replaced by exactly the entries whose sender has the string form of the
    target when there are any; otherwise a copy with [chat_messages]
    replaced by exactly such entries and without the [messages] key when
    there are any; otherwise nothing. *)
Theorem filter_list_document (conversations : list pyval) (selected_user : pyval) :
  forallb (conv_filterable selected_user) conversations = true ->
  filter_conversations_by_user (VList conversations) selected_user =
  Ok (omap (filtered_record selected_user) conversations).
Proof. intros Hf. simpl. by rewrite for_each_filter_conv, Hf. Qed.

Lemma filter_list_document_witness :
  filter_conversations_by_user
    (VList [VDict [("messages", VList [VDict [("sender", VStr "u3")];
                                       VDict [("sender", VStr "u4")]])];
            VInt 7;
            VDict [("account", VDict [("uuid", VStr "u3")]); ("messages", VNone)];
            VDict [("messages", VStr "u3");
                   ("chat_messages", VList [VDict [("user", VStr "u3")]; VNone])]])
    (VStr "u3")
  = Ok [VDict [("messages", VList [VDict [("sender", VStr "u3")]])];
        VDict [("account", VDict [("uuid", VStr "u3")]); ("messages", VNone)];
        VDict [("chat_messages", VList [VDict [("user", VStr "u3")]])]].
Proof.
  exact (filter_list_document
           [VDict [("messages", VList [VDict [("sender", VStr "u3")];
                                       VDict [("sender", VStr "u4")]])];
            VInt 7;
            VDict [("account", VDict [("uuid", VStr "u3")]); ("messages", VNone)];
            VDict [("messages", VStr "u3");
                   ("chat_messages", VList [VDict [("user", VStr "u3")]; VNone])]]
           (VStr "u3") eq_refl).
Defined.

(** ** Absent owners and senders in the filter *)

(** C5.  On the list document [absent_ids] with the target ["None"], the
    string form of the sender of one message of each conversation.  The
    first conversation has no owner field, so by the claim it is not
    included verbatim but as a copy with [messages] trimmed to the one
    message sent by ["None"]; the filter returns it verbatim, with the
    message of ["u1"] in it.  The second conversation is owned by ["u1"]
    and its last message has no sender field, so by the claim [messages]
    is replaced by exactly the message sent by ["None"]; the filter keeps
    the sender-less message too.  Both come from the comparison of the
    string form of an absent value, [None], at lines 249 and 262. *)
Theorem absent_ids_match_None_in_filter :
  conv_owner [("title", VStr "t");
              ("messages", VList [VDict [("sender", VStr "None"); ("text", VStr "a")];
                                  VDict [("sender", VStr "u1"); ("text", VStr "b")]])]
    = VNone /\
  msg_sender [("text", VStr "d")] = VNone /\
  extract_users absent_ids = Ok ["None"; "u1"] /\
  filter_conversations_by_user absent_ids (VStr "None") =
    Ok [VDict [("title", VStr "t");
               ("messages", VList [VDict [("sender", VStr "None"); ("text", VStr "a")];
                                   VDict [("sender", VStr "u1"); ("text", VStr "b")]])];
        VDict [("user_id", VStr "u1");
               ("messages", VList [VDict [("sender", VStr "None"); ("text", VStr "c")];
                                   VDict [("text", VStr "d")]])]].
Proof. by vm_compute. Qed.

(** ** The counter on a list document *)

Lemma existsb_filter {A : Type} (f : A -> bool) (l : list A) :
  existsb f l = match List.filter f l with [] => false | _ :: _ => true end.
Proof.
  induction l as [|x l IH]; simpl; [done|].
  by destruct (f x).
Qed.

Lemma py_iter_has_match (k : string) (target : pyval) (c : pydict) :
  py_iterable (dict_get_default k (VList []) c) = true ->
  exists items, py_iter (dict_get_default k (VList []) c) = Ok items /\
    existsb (msg_matches target) items = has_match k target c.
Proof.
  intros Hit. destruct (py_iter_matching target _ Hit) as (items & Hiter & Hitems).
  exists items. split; [done|].
  unfold has_match. by rewrite existsb_filter, Hitems, matching_entries_get.
Qed.

(** One turn of the counter's loop on a conversation with iterable fields:
    the count grows by one exactly when the owner is the target, or a
    message is the target's, or the count so far is 0 and a chat message is
    the target's. *)
Lemma count_conv_exact (target : pyval) (count : nat) (c : pydict) :
  conv_iterable (VDict c) = true ->
  count_conv target count (VDict c) =
  Ok (if String.eqb (py_str (conv_owner c)) (py_str target)
         || has_match "messages" target c
         || (count =? 0) && has_match "chat_messages" target c
      then count + 1 else count).
Proof.
  simpl. intros [Hm Hc]%andb_prop.
  destruct (String.eqb _ _); [done|]. simpl.
  destruct (py_iter_has_match "messages" target c Hm) as (ms & -> & <-).
  destruct (py_iter_has_match "chat_messages" target c Hc) as (cms & -> & <-).
  simpl. rewrite !count_first_match_step.
  destruct (existsb _ ms); simpl.
  - by replace (count + 1 =? 0) with false by (symmetry; apply Nat.eqb_neq; lia).
  - destruct (count =? 0); simpl; [|done]. by destruct (existsb _ cms).
Qed.

Lemma counted_is_filtered (target : pyval) (c : pydict) (count : nat) :
  String.eqb (py_str (conv_owner c)) (py_str target)
    || has_match "messages" target c
    || (count =? 0) && has_match "chat_messages" target c = true ->
  exists record, filtered_record target (VDict c) = Some record.
Proof.
  unfold has_match. simpl.
  destruct (String.eqb _ _); simpl; [eauto|].
  destruct (matching_entries "messages" target c); simpl; [|eauto].
  destruct (matching_entries "chat_messages" target c); simpl; [|eauto].
  by rewrite andb_false_r.
Qed.

Lemma for_each_count_le (target : pyval) (conversations : list pyval) (count : nat) :
  forallb conv_iterable conversations = true ->
  exists count', for_each (count_conv target) count conversations = Ok count' /\
    count' <= count + length (omap (filtered_record target) conversations).
Proof.
  revert count. induction conversations as [|conv cs IH]; intros count; simpl.
  - intros _. exists count. split; [done|lia].
  - intros [Hc Hcs]%andb_prop.
    destruct conv as [| | | | | |c];
      try (destruct (IH count Hcs) as (n & Hn & Hle); exists n; split; [exact Hn|exact Hle]).
    rewrite (count_conv_exact target count c Hc).
    destruct (_ || _) eqn:Hcounted; simpl.
    + destruct (counted_is_filtered target c count Hcounted) as [record Hrec].
      simpl in Hrec. rewrite Hrec.
      destruct (IH (count + 1) Hcs) as (n & Hn & Hle). exists n. split; [done|].
      unfold omap in *. simpl. lia.
    + destruct (IH count Hcs) as (n & Hn & Hle). exists n. split; [done|].
      unfold omap in *. destruct (if String.eqb _ _ then _ else _); simpl; lia.
Qed.

(** The count never exceeds the number of filtered conversations. *)
Lemma count_le_filter_length (conversations : list pyval) (target : pyval) :
  forallb conv_iterable conversations = true ->
  exists count filtered,
    get_user_conversation_count (VList conversations) target = Ok count /\
    filter_conversations_by_user (VList conversations) target = Ok filtered /\
    count <= length filtered.
Proof.
  intros Hit.
  destruct (for_each_count_le target conversations 0 Hit) as (count & Hcount & Hle).
  exists count, (omap (filtered_record target) conversations).
  split; [done|]. split; [|done].
  simpl. rewrite for_each_filter_conv.
  replace (forallb (conv_filterable target) conversations) with true; [done|].
  symmetry. apply forallb_forall. intros conv Hin.
  apply conv_iterable_filterable.
  by apply (proj1 (forallb_forall conv_iterable conversations) Hit).
Qed.

(** ** User extraction *)

Lemma doc_iterable_dict d :
  doc_iterable (VDict d) =
  match dict_lookup "conversations" d with
  | Some convs => doc_iterable convs
  | None => true
  end.
Proof. simpl. apply on_conversations_eq. Qed.

Lemma add_sender_union (users : gset string) (message : pyval) :
  add_sender users message = users ∪ add_sender ∅ message.
Proof.
  destruct message as [| | | | | |m]; simpl; try set_solver.
  destruct (py_truthy (msg_sender m)); set_solver.
Qed.

Lemma foldl_add_sender_union (users : gset string) (messages : list pyval) :
  foldl add_sender users messages = users ∪ foldl add_sender ∅ messages.
Proof.
  revert users. induction messages as [|m ms IH]; intros users; simpl.
  - set_solver.
  - rewrite (IH (add_sender users m)), (IH (add_sender ∅ m)), (add_sender_union users m).
    set_solver.
Qed.

Lemma foldl_add_sender_twice (users : gset string) (messages chat_messages : list pyval) :
  foldl add_sender (foldl add_sender users messages) chat_messages =
  users ∪ (foldl add_sender ∅ messages ∪ foldl add_sender ∅ chat_messages).
Proof.
  rewrite (foldl_add_sender_union _ chat_messages), (foldl_add_sender_union users messages).
  set_solver.
Qed.

(** What one conversation adds does not depend on the users found so far. *)
Lemma extract_conv_union (users : gset string) (conversation : pyval) :
  extract_conv users conversation =
  found ← extract_conv ∅ conversation; Ok (users ∪ found).
Proof.
  destruct conversation as [| | | | | |c]; simpl; try (f_equal; set_solver).
  destruct (py_iter (dict_get_default "messages" _ c)) as [ms|e]; simpl; [|done].
  destruct (py_iter (dict_get_default "chat_messages" _ c)) as [cms|e]; simpl; [|done].
  f_equal. rewrite !foldl_add_sender_twice.
  destruct (py_truthy (conv_owner c)); set_solver.
Qed.

Lemma extract_conv_total (users : gset string) (conversation : pyval) :
  conv_iterable conversation = true ->
  exists users', extract_conv users conversation = Ok users'.
Proof.
  destruct conversation as [| | | | | |c]; simpl; eauto.
  intros [Hm Hc]%andb_prop.
  destruct (py_iter_matching VNone _ Hm) as (ms & -> & _).
  destruct (py_iter_matching VNone _ Hc) as (cms & -> & _).
  simpl. eauto.
Qed.

Lemma for_each_extract_total (conversations : list pyval) (users : gset string) :
  forallb conv_iterable conversations = true ->
  exists users', for_each extract_conv users conversations = Ok users'.
Proof.
  revert users. induction conversations as [|c cs IH]; intros users; simpl; [eauto|].
  intros [Hc Hcs]%andb_prop.
  destruct (extract_conv_total users c Hc) as [users' ->]. simpl. by apply IH.
Qed.

Lemma for_each_extract_perm (conversations conversations' : list pyval) :
  conversations ≡ₚ conversations' ->
  forall users : gset string,
    for_each extract_conv users conversations = for_each extract_conv users conversations'.
Proof.
  induction 1 as [|x l l' _ IH|x y l|l1 l2 l3 _ IH1 _ IH2]; intros users; simpl.
  - done.
  - destruct (extract_conv users x); simpl; [apply IH|done].
  - rewrite (extract_conv_union users x), (extract_conv_union users y).
    destruct (extract_conv ∅ x) as [sx|[]] eqn:Hx, (extract_conv ∅ y) as [sy|[]] eqn:Hy;
      simpl; rewrite ?(extract_conv_union (users ∪ _)), ?Hx, ?Hy; simpl; try done.
    f_equal. set_solver.
  - by rewrite IH1.
Qed.

(** [sorted(list(users))] is in lexicographic order without repetition. *)
Lemma py_sorted_elements (users : gset string) :
  StronglySorted String.le (py_sorted (elements users)) /\
  NoDup (py_sorted (elements users)).
Proof.
  split.
  - apply StronglySorted_merge_sort; apply _.
  - unfold py_sorted. rewrite merge_sort_Permutation. apply NoDup_elements.
Qed.

Lemma extract_users_total (conversations_data : pyval) :
  doc_iterable conversations_data = true ->
  exists users, extract_users conversations_data = Ok users.
Proof.
  induction conversations_data as [cs|d convs Hd IH|d Hd| | | | |] using document_ind;
    try (simpl; eauto; fail).
  - simpl. intros Hit.
    destruct (for_each_extract_total cs ∅ Hit) as [users ->]. simpl. eauto.
  - rewrite doc_iterable_dict, extract_users_dict, Hd. apply IH.
  - rewrite extract_users_dict, Hd. eauto.
Qed.

Lemma extract_users_sorted (conversations_data : pyval) (users : list string) :
  extract_users conversations_data = Ok users ->
  StronglySorted String.le users /\ NoDup users.
Proof.
  revert users.
  induction conversations_data as [cs|d convs Hd IH|d Hd| | | | |] using document_ind;
    intros users; try (simpl; intros [= <-]; apply py_sorted_elements).
  - simpl. destruct (for_each extract_conv ∅ cs) as [found|e]; simpl; [|done].
    intros [= <-]. apply py_sorted_elements.
  - rewrite extract_users_dict, Hd. apply IH.
  - rewrite extract_users_dict, Hd. intros [= <-]. apply py_sorted_elements.
Qed.

(** Outside the iterable documents extraction raises: [doc_iterable] is the
    exact domain on which [extract_users] returns. *)
Lemma extract_conv_raises (users : gset string) (conversation : pyval) :
  conv_iterable conversation = false ->
  extract_conv users conversation = Raise TypeError.
Proof.
  destruct conversation as [| | | | | |c]; simpl; try done.
  destruct (py_iterable (dict_get_default "messages" _ c)) eqn:Hm; simpl.
  - intros Hc. destruct (py_iter_matching VNone _ Hm) as (ms & -> & _). simpl.
    by rewrite (py_iter_not_iterable _ Hc).
  - intros _. by rewrite (py_iter_not_iterable _ Hm).
Qed.

Lemma for_each_extract_raises (conversations : list pyval) (users : gset string) :
  forallb conv_iterable conversations = false ->
  for_each extract_conv users conversations = Raise TypeError.
Proof.
  revert users. induction conversations as [|c cs IH]; intros users; simpl; [done|].
  destruct (conv_iterable c) eqn:Hc; simpl.
  - intros Hcs. destruct (extract_conv_total users c Hc) as [users' ->]. simpl.
    by apply IH.
  - intros _. by rewrite (extract_conv_raises users c Hc).
Qed.

Lemma extract_users_raises (conversations_data : pyval) :
  doc_iterable conversations_data = false ->
  extract_users conversations_data = Raise TypeError.
Proof.
  induction conversations_data as [cs|d convs Hd IH|d Hd| | | | |] using document_ind;
    try done.
  - simpl. intros Hit. by rewrite (for_each_extract_raises cs ∅ Hit).
  - rewrite doc_iterable_dict, extract_users_dict, Hd. apply IH.
  - by rewrite doc_iterable_dict, Hd.
Qed.

(** C6.  [extract_users] is a function of the document alone.  Whenever it
    returns, its result is in lexicographic order and free of duplicates; it
    does return on every document whose [messages] and [chat_messages] can be
    iterated; and on a list document its outcome is the same for every
    ordering of the conversations. *)
Theorem extract_users_sorted_distinct :
  (forall conversations_data, doc_iterable conversations_data = true ->
     exists users, extract_users conversations_data = Ok users) /\
  (forall conversations_data users, extract_users conversations_data = Ok users ->
     StronglySorted String.le users /\ NoDup users) /\
  (forall conversations conversations' : list pyval,
     conversations ≡ₚ conversations' ->
     extract_users (VList conversations) = extract_users (VList conversations')).
Proof.
  split; [exact extract_users_total|]. split; [exact extract_users_sorted|].
  intros cs cs' Hperm. simpl. by rewrite (for_each_extract_perm cs cs' Hperm).
Qed.

Lemma extract_users_sorted_distinct_witness :
  (exists users,
     extract_users (VList [VDict [("user_id", VStr "u2")];
                           VDict [("messages", VList [VDict [("sender", VStr "u1")]])]])
     = Ok users) /\
  (StronglySorted String.le ["u1"; "u2"] /\ NoDup ["u1"; "u2"]) /\
  extract_users (VList [VDict [("user_id", VStr "u2")];
                        VDict [("messages", VList [VDict [("sender", VStr "u1")]])]])
  = extract_users (VList [VDict [("messages", VList [VDict [("sender", VStr "u1")]])];
                          VDict [("user_id", VStr "u2")]]).
Proof.
  destruct extract_users_sorted_distinct as (Htotal & Hsorted & Hperm).
  split; [|split].
  - apply Htotal. reflexivity.
  - apply (Hsorted (VList [VDict [("user_id", VStr "u2")];
                           VDict [("messages", VList [VDict [("sender", VStr "u1")]])]])).
    vm_compute. reflexivity.
  - apply Hperm. apply perm_swap.
Defined.

(** ** Filtering twice *)

Lemma dict_lookup_set_eq (k : string) (v : pyval) (d : pydict) :
  dict_lookup k (dict_set k v d) = Some v.
Proof.
  induction d as [|[k0 v0] d IH]; simpl.
  - by rewrite String.eqb_refl.
  - destruct (String.eqb k0 k) eqn:Hk; simpl.
    + by rewrite String.eqb_refl.
    + by rewrite Hk.
Qed.

Lemma dict_set_same (k : string) (v : pyval) (d : pydict) :
  dict_lookup k d = Some v -> dict_set k v d = d.
Proof.
  induction d as [|[k0 v0] d IH]; simpl; [done|].
  destruct (String.eqb_spec k0 k) as [->|Hne].
  - by intros [= ->].
  - intros Hd. f_equal. by apply IH.
Qed.

Lemma dict_lookup_pop_eq (k : string) (d : pydict) :
  dict_lookup k (dict_pop k d) = None.
Proof.
  induction d as [|[k0 v0] d IH]; simpl; [done|].
  destruct (String.eqb k0 k) eqn:Hk; simpl; [done|]. by rewrite Hk.
Qed.

Lemma dict_lookup_pop_ne (k k' : string) (d : pydict) :
  k <> k' -> dict_lookup k (dict_pop k' d) = dict_lookup k d.
Proof.
  intros Hne. induction d as [|[k0 v0] d IH]; simpl; [done|].
  destruct (String.eqb_spec k0 k') as [->|Hk0]; simpl.
  - destruct (String.eqb_spec k' k) as [->|]; done.
  - by rewrite IH.
Qed.

(** The owner of a conversation is read from five keys only. *)
Lemma conv_owner_ext (c c' : pydict) :
  (forall k, k <> "messages" -> k <> "chat_messages" -> dict_lookup k c' = dict_lookup k c) ->
  conv_owner c' = conv_owner c.
Proof.
  intros Hext. unfold conv_owner, dict_mem, dict_get, dict_get_default.
  by rewrite !Hext.
Qed.

Lemma filter_filter_same {A : Type} (f : A -> bool) (l : list A) :
  List.filter f (List.filter f l) = List.filter f l.
Proof.
  induction l as [|x l IH]; simpl; [done|].
  destruct (f x) eqn:Hx; simpl; [|done]. by rewrite Hx, IH.
Qed.

Lemma matching_entries_filtered (k : string) (target : pyval) (c : pydict) :
  List.filter (msg_matches target) (matching_entries k target c)
  = matching_entries k target c.
Proof.
  unfold matching_entries. destruct (dict_lookup k c) as [[]|]; try done.
  apply filter_filter_same.
Qed.

(** What an emitted record keeps of its conversation: every field but
    [messages] and [chat_messages]. *)
Lemma filtered_record_fields (target : pyval) (c : pydict) (record : pyval) :
  filtered_record target (VDict c) = Some record ->
  exists r, record = VDict r /\
    forall k, k <> "messages" -> k <> "chat_messages" -> dict_lookup k r = dict_lookup k c.
Proof.
  simpl. destruct (String.eqb _ _).
  { intros [= <-]. by exists c. }
  destruct (matching_entries "messages" target c) as [|m ms].
  - destruct (matching_entries "chat_messages" target c) as [|cm cms]; [done|].
    intros [= <-]. eexists; split; [done|]. intros k Hm Hc.
    by rewrite dict_lookup_pop_ne, dict_lookup_set_ne.
  - intros [= <-]. eexists; split; [done|]. intros k Hm Hc.
    by rewrite dict_lookup_set_ne.
Qed.

(** A record the filter emitted is emitted again, unchanged, and without
    raising. *)
Lemma filtered_record_fixed (target : pyval) (conversation record : pyval) :
  filtered_record target conversation = Some record ->
  conv_filterable target record = true /\ filtered_record target record = Some record.
Proof.
  destruct conversation as [| | | | | |c]; try done.
  intros Hrec. destruct (filtered_record_fields target c record Hrec) as (r & -> & Hext).
  pose proof (conv_owner_ext c r Hext) as Howner.
  revert Hrec. simpl. rewrite Howner.
  destruct (String.eqb _ _); [done|]. simpl.
  pose proof (matching_entries_filtered "messages" target c) as Hmm.
  pose proof (matching_entries_filtered "chat_messages" target c) as Hcm.
  destruct (matching_entries "messages" target c) as [|m ms].
  - destruct (matching_entries "chat_messages" target c) as [|cm cms]; [done|].
    intros [= <-].
    assert (Hm : dict_lookup "messages"
                   (dict_pop "messages" (dict_set "chat_messages" (VList (cm :: cms)) c))
                 = None) by apply dict_lookup_pop_eq.
    assert (Hc : dict_lookup "chat_messages"
                   (dict_pop "messages" (dict_set "chat_messages" (VList (cm :: cms)) c))
                 = Some (VList (cm :: cms))).
    { rewrite dict_lookup_pop_ne by done. apply dict_lookup_set_eq. }
    unfold matching_entries, dict_get_default. rewrite Hm, Hc, Hcm. simpl.
    split; [done|].
    by rewrite (dict_set_same _ _ _ Hc), (dict_pop_absent _ _ Hm).
  - intros [= <-].
    assert (Hm : dict_lookup "messages" (dict_set "messages" (VList (m :: ms)) c)
                 = Some (VList (m :: ms))) by apply dict_lookup_set_eq.
    unfold matching_entries, dict_get_default. rewrite Hm, Hmm. simpl.
    split; [done|]. by rewrite (dict_set_same _ _ _ Hm).
Qed.

Lemma omap_filtered_record_fixed (target : pyval) (conversations : list pyval) :
  forallb (conv_filterable target) (omap (filtered_record target) conversations) = true /\
  omap (filtered_record target) (omap (filtered_record target) conversations)
  = omap (filtered_record target) conversations.
Proof.
  induction conversations as [|c cs [IHf IHo]]; [done|].
  change (omap (filtered_record target) (c :: cs))
    with (match filtered_record target c with
          | Some r => r :: omap (filtered_record target) cs
          | None => omap (filtered_record target) cs
          end).
  destruct (filtered_record target c) as [r|] eqn:Hr; [|done].
  destruct (filtered_record_fixed target c r Hr) as [Hf Hfix].
  split.
  - simpl. by rewrite Hf, IHf.
  - change (omap (filtered_record target) (r :: omap (filtered_record target) cs))
      with (match filtered_record target r with
            | Some r' => r' :: omap (filtered_record target) (omap (filtered_record target) cs)
            | None => omap (filtered_record target) (omap (filtered_record target) cs)
            end).
    by rewrite Hfix, IHo.
Qed.

Lemma filter_list_again (conversations filtered : list pyval) (selected_user : pyval) :
  filter_conversations_by_user (VList conversations) selected_user = Ok filtered ->
  filter_conversations_by_user (VList filtered) selected_user = Ok filtered.
Proof.
  simpl. rewrite !for_each_filter_conv.
  destruct (forallb _ conversations); [|done].
  intros [= <-].
  destruct (omap_filtered_record_fixed selected_user conversations) as [-> ->].
  done.
Qed.

(** Filtering the result of a filter, for the same target, returns it
    unchanged, and never raises. *)
Theorem filter_idempotent (conversations filtered : list pyval) (selected_user : pyval) :
  filter_conversations_by_user (VList conversations) selected_user = Ok filtered ->
  filter_conversations_by_user (VList filtered) selected_user = Ok filtered.
Proof. apply filter_list_again. Qed.

Lemma filter_idempotent_witness :
  filter_conversations_by_user
    (VList [VDict [("title", VStr "t"); ("messages", VList [VDict [("sender", VStr "u3")]]);
                   ("chat_messages", VList [VDict [("sender", VStr "u3")];
                                            VDict [("sender", VStr "u4")]])]])
    (VStr "u4")
  = Ok [VDict [("title", VStr "t");
               ("chat_messages", VList [VDict [("sender", VStr "u4")]])]] /\
  filter_conversations_by_user
    (VList [VDict [("title", VStr "t");
                   ("chat_messages", VList [VDict [("sender", VStr "u4")]])]])
    (VStr "u4")
  = Ok [VDict [("title", VStr "t");
               ("chat_messages", VList [VDict [("sender", VStr "u4")]])]].
Proof.
  split; [reflexivity|].
  apply (filter_idempotent
           [VDict [("title", VStr "t"); ("messages", VList [VDict [("sender", VStr "u3")]]);
                   ("chat_messages", VList [VDict [("sender", VStr "u3")];
                                            VDict [("sender", VStr "u4")]])]]).
  reflexivity.
Defined.

(** ** Where the filtered records come from *)

Lemma filtered_record_dict (target : pyval) (conversation record : pyval) :
  filtered_record target conversation = Some record ->
  exists c, conversation = VDict c.
Proof. destruct conversation; try done. eauto. Qed.

Lemma filter_output_origin (conversations filtered : list pyval) (target record : pyval) :
  filter_conversations_by_user (VList conversations) target = Ok filtered ->
  record ∈ filtered ->
  exists c, VDict c ∈ conversations /\ filtered_record target (VDict c) = Some record.
Proof.
  simpl. rewrite for_each_filter_conv.
  destruct (forallb _ conversations); [|done].
  intros [= <-] Hin. apply list_elem_of_omap in Hin as (conv & Hconv & Hrec).
  destruct (filtered_record_dict _ _ _ Hrec) as [c ->]. eauto.
Qed.



(** Every filtered record is a conversation of the document in all its
    fields but [messages] and [chat_messages]; in particular it has the
    owner of that conversation. *)
Theorem filtered_records_keep_fields
    (conversations filtered : list pyval) (selected_user record : pyval) :
  filter_conversations_by_user (VList conversations) selected_user = Ok filtered ->
  record ∈ filtered ->
  exists c r, VDict c ∈ conversations /\ record = VDict r /\
    conv_owner r = conv_owner c /\
    forall k, k <> "messages" -> k <> "chat_messages" -> dict_lookup k r = dict_lookup k c.
Proof.
  intros Hf Hin. destruct (filter_output_origin _ _ _ _ Hf Hin) as (c & Hc & Hrec).
  destruct (filtered_record_fields _ _ _ Hrec) as (r & -> & Hext).
  exists c, r. repeat split; try done. by apply conv_owner_ext.
Qed.

Lemma filtered_records_keep_fields_witness :
  exists c r,
    VDict c ∈ [VDict [("title", VStr "t"); ("messages", VList [VDict [("sender", VStr "u3")];
                                                               VDict [("sender", VStr "u4")]])]]
    /\ VDict [("title", VStr "t"); ("messages", VList [VDict [("sender", VStr "u4")]])]
       = VDict r
    /\ conv_owner r = conv_owner c
    /\ forall k, k <> "messages" -> k <> "chat_messages" -> dict_lookup k r = dict_lookup k c.
Proof.
  apply (filtered_records_keep_fields
           [VDict [("title", VStr "t"); ("messages", VList [VDict [("sender", VStr "u3")];
                                                            VDict [("sender", VStr "u4")]])]]
           [VDict [("title", VStr "t"); ("messages", VList [VDict [("sender", VStr "u4")]])]]
           (VStr "u4")).
  - reflexivity.
  - apply list_elem_of_here.
Defined.



(** ** The count in closed form *)

Lemma for_each_count_closed (target : pyval) (conversations : list pyval) (count : nat) :
  forallb conv_iterable conversations = true ->
  for_each (count_conv target) count conversations =
  Ok (count + length (List.filter (owner_or_message_match target) conversations)
      + if (count =? 0) && chat_match_first target conversations then 1 else 0).
Proof.
  revert count. induction conversations as [|conv cs IH]; intros count.
  - intros _. simpl. rewrite andb_false_r. f_equal. lia.
  - intros [Hc Hcs]%andb_prop.
    destruct conv as [| | | | | |c]; try (exact (IH count Hcs)).
    change (for_each (count_conv target) count (VDict c :: cs))
      with (count_conv target count (VDict c) ≫= fun n => for_each (count_conv target) n cs).
    rewrite (count_conv_exact target count c Hc).
    change (List.filter (owner_or_message_match target) (VDict c :: cs))
      with (if owner_or_message_match target (VDict c)
            then VDict c :: List.filter (owner_or_message_match target) cs
            else List.filter (owner_or_message_match target) cs).
    change (chat_match_first target (VDict c :: cs))
      with (if owner_or_message_match target (VDict c) then false
            else if has_match "chat_messages" target c then true
            else chat_match_first target cs).
    change (owner_or_message_match target (VDict c))
      with (String.eqb (py_str (conv_owner c)) (py_str target)
            || has_match "messages" target c).
    destruct (String.eqb _ _ || has_match "messages" target c); simpl.
    + rewrite (IH (count + 1) Hcs).
      replace (count + 1 =? 0) with false by (symmetry; apply Nat.eqb_neq; lia).
      rewrite andb_false_r. simpl. f_equal. lia.
    + destruct (count =? 0) eqn:Hz; simpl.
      * destruct (has_match "chat_messages" target c); simpl.
        -- rewrite (IH (count + 1) Hcs).
           replace (count + 1 =? 0) with false by (symmetry; apply Nat.eqb_neq; lia).
           simpl. f_equal. lia.
        -- by rewrite (IH count Hcs), Hz.
      * by rewrite (IH count Hcs), Hz.
Qed.



Lemma length_omap_le {A B : Type} (f : A -> option B) (l : list A) :
  length (omap f l) <= length l.
Proof.
  unfold omap. induction l as [|x l IH]; simpl; [done|].
  destruct (f x); simpl; lia.
Qed.

(** On a list document with iterable message fields the count is at most
    the number of filtered conversations, which is at most the number of
    conversations. *)
Theorem count_le_filtered_le_all (conversations : list pyval) (target : pyval) :
  forallb conv_iterable conversations = true ->
  exists count filtered,
    get_user_conversation_count (VList conversations) target = Ok count /\
    filter_conversations_by_user (VList conversations) target = Ok filtered /\
    count <= length filtered <= length conversations.
Proof.
  intros Hit.
  destruct (count_le_filter_length conversations target Hit)
    as (count & filtered & Hcount & Hfilter & Hle).
  exists count, filtered. repeat split; try done.
  revert Hfilter. simpl. rewrite for_each_filter_conv.
  destruct (forallb (conv_filterable target) conversations); [|done].
  intros [= Hf]. subst filtered. apply length_omap_le.
Qed.

Lemma count_le_filtered_le_all_witness :
  exists count filtered,
    get_user_conversation_count owner_then_chat (VStr "u") = Ok count /\
    filter_conversations_by_user owner_then_chat (VStr "u") = Ok filtered /\
    count <= length filtered <= 2.
Proof.
  exact (count_le_filtered_le_all
           [VDict [("user_id", VStr "u")];
            VDict [("chat_messages", VList [VDict [("sender", VStr "u")]])]]
           (VStr "u") eq_refl).
Defined.

(** ** When the traversals raise *)

(** [extract_users] raises exactly on the documents in which some
    conversation has a [messages] or [chat_messages] value that cannot be
    iterated; the exception is [TypeError]. *)
Theorem extract_users_raises_iff (conversations_data : pyval) :
  extract_users conversations_data = Raise TypeError <->
  doc_iterable conversations_data = false.
Proof.
  split.
  - intros Hraise. destruct (doc_iterable conversations_data) eqn:Hit; [|done].
    destruct (extract_users_total _ Hit) as [users Husers]. congruence.
  - apply extract_users_raises.
Qed.

Lemma extract_users_raises_iff_witness :
  extract_users (VDict [("conversations", VList [VDict [("chat_messages", VInt 5)]])])
  = Raise TypeError.
Proof.
  apply (proj2 (extract_users_raises_iff
                  (VDict [("conversations", VList [VDict [("chat_messages", VInt 5)]])]))).
  reflexivity.
Defined.




(** ** Which users extraction finds *)

Lemma add_sender_elem (user : string) (users : gset string) (message : pyval) :
  user ∈ add_sender users message <->
  user ∈ users \/
  exists m, message = VDict m /\ py_truthy (msg_sender m) = true /\ py_str (msg_sender m) = user.
Proof.
  destruct message as [| | | | | |m]; simpl;
    try (split; [by left|intros [H|(m & Hm & _)]; [done|discriminate]]).
  destruct (py_truthy (msg_sender m)) eqn:Ht.
  - rewrite elem_of_union, elem_of_singleton. split.
    + intros [H| ->]; [by left|]. right. by exists m.
    + intros [H|(m' & [= <-] & _ & <-)]; [by left|by right].
  - split; [by left|]. intros [H|(m' & [= <-] & Ht' & _)]; [done|congruence].
Qed.

Lemma foldl_add_sender_elem (user : string) (messages : list pyval) (users : gset string) :
  user ∈ foldl add_sender users messages <->
  user ∈ users \/
  exists m, VDict m ∈ messages /\ py_truthy (msg_sender m) = true
            /\ py_str (msg_sender m) = user.
Proof.
  revert users. induction messages as [|x ms IH]; intros users; simpl.
  - split; [by left|]. intros [H|(m & Hin & _)]; [done|]. by apply elem_of_nil in Hin.
  - rewrite IH, add_sender_elem. split.
    + intros [[H|(m & -> & Ht & Hs)]|(m & Hin & Ht & Hs)]; [by left|right..].
      * exists m. split; [apply list_elem_of_here|done].
      * exists m. split; [by apply list_elem_of_further|done].
    + intros [H|(m & Hin & Ht & Hs)]; [by left; left|].
      apply elem_of_cons in Hin as [<-|Hin].
      * left. right. by exists m.
      * right. by exists m.
Qed.

(** Only a list has [dict] items: the keys of a [dict] and the characters of
    a [str] are strings. *)
Lemma py_iter_dict_item (k : string) (c : pydict) (items : list pyval) (m : pydict) :
  py_iter (dict_get_default k (VList []) c) = Ok items ->
  VDict m ∈ items <->
  exists entries, dict_lookup k c = Some (VList entries) /\ VDict m ∈ entries.
Proof.
  unfold dict_get_default.
  destruct (dict_lookup k c) as [[| | | |s|l|d]|]; simpl; try done; intros [= <-].
  - split; [|by intros (? & [=] & _)].
    intros (x & [=] & _)%list_elem_of_fmap.
  - split; [eauto|]. by intros (? & [= <-] & ?).
  - split; [|by intros (? & [=] & _)].
    intros (x & [=] & _)%list_elem_of_fmap.
  - split; [by intros ?%elem_of_nil|by intros (? & [=] & _)].
Qed.

Lemma extract_conv_elem (user : string) (users users' : gset string) (c : pydict) :
  extract_conv users (VDict c) = Ok users' ->
  user ∈ users' <-> user ∈ users \/ user_of_conv user c.
Proof.
  simpl.
  destruct (py_iter (dict_get_default "messages" _ c)) as [ms|e] eqn:Hms; simpl; [|done].
  destruct (py_iter (dict_get_default "chat_messages" _ c)) as [cms|e] eqn:Hcms;
    simpl; [|done].
  intros [= <-]. rewrite !foldl_add_sender_elem. unfold user_of_conv, sender_in.
  assert (Hown : user ∈ (if py_truthy (conv_owner c)
                         then users ∪ {[py_str (conv_owner c)]} else users)
                 <-> user ∈ users
                     \/ (py_truthy (conv_owner c) = true /\ py_str (conv_owner c) = user)).
  { destruct (py_truthy (conv_owner c)).
    - rewrite elem_of_union, elem_of_singleton. naive_solver.
    - naive_solver. }
  rewrite Hown.
  split.
  - intros [[[H|H]|(m & Hin & Ht & Hs)]|(m & Hin & Ht & Hs)]; [by left|right..].
    + by left.
    + right. left. apply (py_iter_dict_item _ _ _ _ Hms) in Hin as (entries & Hl & Hin).
      by exists entries, m.
    + right. right. apply (py_iter_dict_item _ _ _ _ Hcms) in Hin as (entries & Hl & Hin).
      by exists entries, m.
  - intros [H|[H|[(entries & m & Hl & Hin & Ht & Hs)|(entries & m & Hl & Hin & Ht & Hs)]]].
    + by left; left; left.
    + by left; left; right.
    + left. right. exists m. split; [|done].
      apply (py_iter_dict_item _ _ _ _ Hms). eauto.
    + right. exists m. split; [|done].
      apply (py_iter_dict_item _ _ _ _ Hcms). eauto.
Qed.

Lemma for_each_extract_elem (user : string) (conversations : list pyval)
    (users users' : gset string) :
  for_each extract_conv users conversations = Ok users' ->
  user ∈ users' <->
  user ∈ users \/ exists c, VDict c ∈ conversations /\ user_of_conv user c.
Proof.
  revert users. induction conversations as [|conv cs IH]; intros users; simpl.
  - intros [= <-]. split; [by left|]. intros [H|(c & Hin & _)]; [done|].
    by apply elem_of_nil in Hin.
  - destruct (extract_conv users conv) as [users1|e] eqn:Hconv; simpl; [|done].
    intros Hrest. rewrite (IH _ Hrest).
    destruct conv as [| | | | | |c].
    7: { rewrite (extract_conv_elem user users users1 c Hconv). split.
         - intros [[H|H]|(c' & Hin & Hu)]; [by left|right..].
           + exists c. split; [apply list_elem_of_here|done].
           + exists c'. split; [by apply list_elem_of_further|done].
         - intros [H|(c' & Hin & Hu)]; [by left; left|].
           apply elem_of_cons in Hin as [[= <-]|Hin]; [by left; right|].
           right. by exists c'. }
    all: simpl in Hconv; injection Hconv as <-; split;
      [ intros [H|(c' & Hin & Hu)]; [by left|right; exists c'; split;
          [by apply list_elem_of_further|done]]
      | intros [H|(c' & Hin & Hu)]; [by left|right; exists c'; split; [|done];
          by apply elem_of_cons in Hin as [[=]|Hin]] ].
Qed.

Lemma elem_of_py_sorted_elements (user : string) (users : gset string) :
  user ∈ py_sorted (elements users) <-> user ∈ users.
Proof. unfold py_sorted. by rewrite merge_sort_Permutation, elem_of_elements. Qed.

(** On a list document the users extraction returns are exactly the string
    forms of the truthy owners of its conversations and of the truthy
    senders of the entries of their [messages] and [chat_messages] lists. *)
Theorem extract_users_list_members
    (conversations : list pyval) (users : list string) (user : string) :
  extract_users (VList conversations) = Ok users ->
  user ∈ users <-> exists c, VDict c ∈ conversations /\ user_of_conv user c.
Proof.
  simpl. destruct (for_each extract_conv ∅ conversations) as [found|e] eqn:Hfound;
    simpl; [|done].
  intros [= <-]. rewrite elem_of_py_sorted_elements, (for_each_extract_elem _ _ _ _ Hfound).
  split; [|by right]. intros [H|H]; [|done]. by apply not_elem_of_empty in H.
Qed.

Lemma extract_users_list_members_witness :
  "u2" ∈ ["u1"; "u2"] <->
  exists c, VDict c ∈ [VDict [("account", VDict [("id", VStr "u2")])];
                       VDict [("chat_messages", VList [VDict [("author", VStr "u1")]])]]
            /\ user_of_conv "u2" c.
Proof.
  apply (extract_users_list_members
           [VDict [("account", VDict [("id", VStr "u2")])];
            VDict [("chat_messages", VList [VDict [("author", VStr "u1")]])]]
           ["u1"; "u2"] "u2").
  vm_compute. reflexivity.
Defined.

(** On a document keyed by user (a [dict] without [conversations]) the
    users are exactly the keys. *)
Theorem extract_users_keyed_members (d : pydict) (users : list string) (user : string) :
  dict_lookup "conversations" d = None ->
  extract_users (VDict d) = Ok users ->
  user ∈ users <-> exists v, dict_lookup user d = Some v.
Proof.
  intros Hshape. rewrite extract_users_dict, Hshape. intros [= <-].
  rewrite elem_of_py_sorted_elements, elem_of_list_to_set. unfold dict_keys.
  induction d as [|[k v] d IH]; simpl.
  - split; [by intros ?%elem_of_nil|by intros [? ?]].
  - simpl in Hshape. destruct (String.eqb k "conversations"); [done|].
    rewrite elem_of_cons, (IH Hshape).
    destruct (String.eqb_spec k user) as [->|Hne].
    + split; [eauto|by left].
    + split; [by intros [->|?]|by right].
Qed.

Lemma extract_users_keyed_members_witness :
  "u8" ∈ ["u6"; "u7"; "u8"; "u9"] <-> exists v, dict_lookup "u8" keyed_by_user = Some v.
Proof.
  apply (extract_users_keyed_members keyed_by_user ["u6"; "u7"; "u8"; "u9"] "u8").
  - reflexivity.
  - vm_compute. reflexivity.
Defined.

(** ** Every listed user has something to export *)

Lemma has_match_sender_in (k user : string) (c : pydict) :
  sender_in k user c -> has_match k (VStr user) c = true.
Proof.
  intros (entries & m & Hl & Hin & _ & Hs). unfold has_match, matching_entries.
  rewrite Hl.
  assert (HIn : In (VDict m) (List.filter (msg_matches (VStr user)) entries)).
  { apply filter_In. split; [by apply list_elem_of_In|].
    simpl. rewrite Hs. apply String.eqb_refl. }
  by destruct (List.filter _ entries).
Qed.

Lemma appears_counts (target : pyval) (conversations : list pyval) (c : pydict) :
  VDict c ∈ conversations ->
  owner_or_message_match target (VDict c) || has_match "chat_messages" target c = true ->
  1 <= length (List.filter (owner_or_message_match target) conversations)
       + if chat_match_first target conversations then 1 else 0.
Proof.
  intros Hin Happears. induction conversations as [|conv cs IH].
  - by apply elem_of_nil in Hin.
  - apply elem_of_cons in Hin as [<-|Hin].
    + change (List.filter (owner_or_message_match target) (VDict c :: cs))
        with (if owner_or_message_match target (VDict c)
              then VDict c :: List.filter (owner_or_message_match target) cs
              else List.filter (owner_or_message_match target) cs).
      change (chat_match_first target (VDict c :: cs))
        with (if owner_or_message_match target (VDict c) then false
              else if has_match "chat_messages" target c then true
              else chat_match_first target cs).
      destruct (owner_or_message_match target (VDict c)); simpl; [lia|].
      simpl in Happears. rewrite Happears. lia.
    + specialize (IH Hin).
      destruct conv as [| | | | | |c']; try exact IH.
      change (List.filter (owner_or_message_match target) (VDict c' :: cs))
        with (if owner_or_message_match target (VDict c')
              then VDict c' :: List.filter (owner_or_message_match target) cs
              else List.filter (owner_or_message_match target) cs).
      change (chat_match_first target (VDict c' :: cs))
        with (if owner_or_message_match target (VDict c') then false
              else if has_match "chat_messages" target c' then true
              else chat_match_first target cs).
      destruct (owner_or_message_match target (VDict c')); simpl; [lia|].
      destruct (has_match "chat_messages" target c'); lia.
Qed.

(** On a list document with iterable message fields, every user that
    extraction lists is counted at least once and has a non-empty filter
    result: the menu of [main] offers no user with nothing to export. *)
Theorem listed_user_has_conversations
    (conversations : list pyval) (users : list string) (user : string) :
  forallb conv_iterable conversations = true ->
  extract_users (VList conversations) = Ok users ->
  user ∈ users ->
  exists count record filtered,
    get_user_conversation_count (VList conversations) (VStr user) = Ok count /\
    filter_conversations_by_user (VList conversations) (VStr user) = Ok (record :: filtered) /\
    1 <= count.
Proof.
  intros Hit Husers Hin. simpl in Husers.
  destruct (for_each extract_conv ∅ conversations) as [found|e] eqn:Hfound;
    simpl in Husers; [|done].
  injection Husers as <-. apply elem_of_py_sorted_elements in Hin.
  apply (for_each_extract_elem _ _ _ _ Hfound) in Hin as [Hin|(c & Hc & Hu)];
    [by apply not_elem_of_empty in Hin|].
  assert (Happears : owner_or_message_match (VStr user) (VDict c)
                     || has_match "chat_messages" (VStr user) c = true).
  { simpl. destruct Hu as [[_ Hs]|[Hm|Hcm]].
    - rewrite Hs, String.eqb_refl. done.
    - rewrite (has_match_sender_in _ _ _ Hm). by rewrite orb_true_r.
    - rewrite (has_match_sender_in _ _ _ Hcm). by rewrite orb_true_r. }
  pose proof (appears_counts _ _ _ Hc Happears) as Hone.
  destruct (count_le_filter_length conversations (VStr user) Hit)
    as (count & filtered & Hcount & Hfilter & Hle).
  pose proof (for_each_count_closed (VStr user) conversations 0 Hit) as Hclosed.
  assert (Hval : count = length (List.filter (owner_or_message_match (VStr user))
                                   conversations)
                         + if chat_match_first (VStr user) conversations then 1 else 0).
  { simpl in Hcount. rewrite Hclosed in Hcount. by injection Hcount as <-. }
  destruct filtered as [|record filtered]; [simpl in Hle; lia|].
  exists count, record, filtered. split; [done|]. split; [done|]. lia.
Qed.

Lemma listed_user_has_conversations_witness :
  exists count record filtered,
    get_user_conversation_count owner_then_chat (VStr "u") = Ok count /\
    filter_conversations_by_user owner_then_chat (VStr "u") = Ok (record :: filtered) /\
    1 <= count.
Proof.
  apply (listed_user_has_conversations
           [VDict [("user_id", VStr "u")];
            VDict [("chat_messages", VList [VDict [("sender", VStr "u")]])]]
           ["u"] "u").
  - reflexivity.
  - vm_compute. reflexivity.
  - apply list_elem_of_here.
Defined.

(** ** The identity mapping of [load_user_info] *)

Lemma assoc_lookup_set_eq {V : Type} (k : string) (v : V) (m : list (string * V)) :
  dict_lookup k (assoc_set k v m) = Some v.
Proof.
  induction m as [|[k0 v0] m IH]; simpl.
  - by rewrite String.eqb_refl.
  - destruct (String.eqb k0 k) eqn:Hk; simpl.
    + by rewrite String.eqb_refl.
    + by rewrite Hk.
Qed.

Lemma assoc_lookup_set_ne {V : Type} (k k' : string) (v : V) (m : list (string * V)) :
  k <> k' -> dict_lookup k (assoc_set k' v m) = dict_lookup k m.
Proof.
  intros Hne. induction m as [|[k0 v0] m IH]; simpl.
  - by destruct (String.eqb_spec k' k) as [->|].
  - destruct (String.eqb_spec k0 k') as [->|Hk0]; simpl.
    + destruct (String.eqb_spec k' k) as [->|]; done.
    + by rewrite IH.
Qed.

Lemma records_keyed_set (k : string) (user : pydict) (m : list (string * pydict)) :
  records_keyed m -> records_keyed (assoc_set k (user_record user k) m).
Proof.
  intros Hm k' info. destruct (String.eqb_spec k' k) as [->|Hne].
  - rewrite assoc_lookup_set_eq. intros [= <-]. by exists user.
  - rewrite assoc_lookup_set_ne by done. apply Hm.
Qed.

Lemma records_keyed_foldl {A : Type} (f : list (string * pydict) -> A -> list (string * pydict))
    (l : list A) (m : list (string * pydict)) :
  (forall m x, records_keyed m -> records_keyed (f m x)) ->
  records_keyed m -> records_keyed (foldl f m l).
Proof.
  intros Hf. revert m. induction l as [|x l IH]; intros m Hm; simpl; [done|].
  apply IH. by apply Hf.
Qed.

Lemma user_mapping_records_keyed (data : pyval) :
  records_keyed (user_mapping_of_data data).
Proof.
  assert (Hnil : records_keyed []) by (intros k info; done).
  destruct data as [| | | | |users|d]; simpl; try done.
  - apply records_keyed_foldl; [|done]. intros m [| | | | | |u] Hm; simpl; try done.
    destruct (py_truthy (array_user_id u)); [|done]. by apply records_keyed_set.
  - apply records_keyed_foldl; [|done]. intros m [k [| | | | | |ui]] Hm; simpl; try done.
    by apply records_keyed_set.
Qed.

(** Whatever the identity file holds, every record of the mapping built from
    it has exactly the fields [name], [email] and [id], in this order, and
    its [id] is the key it is stored under. *)
Theorem user_mapping_record_shape (data : pyval) (user_id : string) (user_info : pydict) :
  dict_lookup user_id (user_mapping_of_data data) = Some user_info ->
  dict_keys user_info = ["name"; "email"; "id"] /\
  dict_lookup "id" user_info = Some (VStr user_id).
Proof.
  intros Hl. by destruct (user_mapping_records_keyed data user_id user_info Hl) as [user ->].
Qed.

Lemma user_mapping_record_shape_witness :
  dict_keys [("name", VStr "Ada"); ("email", VNone); ("id", VStr "17")]
    = ["name"; "email"; "id"] /\
  dict_lookup "id" [("name", VStr "Ada"); ("email", VNone); ("id", VStr "17")]
    = Some (VStr "17").
Proof.
  apply (user_mapping_record_shape
           (VList [VDict [("uuid", VInt 17); ("display_name", VStr "Ada")]]) "17").
  reflexivity.
Defined.

(** Array format: an entry with a truthy identifier replaces the record an
    earlier entry stored under the same string form, and leaves the records
    of all other identifiers as they were. *)
Theorem user_mapping_array_last_wins (users : list pyval) (user : pydict) :
  py_truthy (array_user_id user) = true ->
  let user_id := py_str (array_user_id user) in
  dict_lookup user_id (user_mapping_of_data (VList (users ++ [VDict user])))
    = Some (user_record user user_id) /\
  forall other, other <> user_id ->
    dict_lookup other (user_mapping_of_data (VList (users ++ [VDict user])))
    = dict_lookup other (user_mapping_of_data (VList users)).
Proof.
  intros Ht user_id. simpl. rewrite foldl_app. simpl. rewrite Ht. fold user_id. split.
  - apply assoc_lookup_set_eq.
  - intros other Hne. by apply assoc_lookup_set_ne.
Qed.

Lemma user_mapping_array_last_wins_witness :
  dict_lookup "u1"
    (user_mapping_of_data
       (VList [VDict [("id", VStr "u1"); ("name", VStr "Ada")];
               VDict [("id", VStr "u2"); ("name", VStr "Bob")];
               VDict [("user_id", VStr "u1"); ("full_name", VStr "Ada L.")]]))
  = Some [("name", VStr "Ada L."); ("email", VNone); ("id", VStr "u1")].
Proof.
  exact (proj1 (user_mapping_array_last_wins
                  [VDict [("id", VStr "u1"); ("name", VStr "Ada")];
                   VDict [("id", VStr "u2"); ("name", VStr "Bob")]]
                  [("user_id", VStr "u1"); ("full_name", VStr "Ada L.")] eq_refl)).
Defined.

Lemma object_users_untouched (user_id : string) (d : pydict) (m : list (string * pydict)) :
  dict_lookup user_id d = None ->
  dict_lookup user_id (foldl add_object_user m d) = dict_lookup user_id m.
Proof.
  revert m. induction d as [|[k v] d IH]; intros m; simpl; [done|].
  destruct (String.eqb_spec k user_id) as [->|Hne]; [done|].
  intros Hd. rewrite (IH _ Hd). unfold add_object_user. simpl.
  destruct v; try done. by apply assoc_lookup_set_ne.
Qed.

Lemma NoDup_keys_lookup_tail (k : string) (v : pyval) (d : pydict) :
  NoDup (dict_keys ((k, v) :: d)) -> dict_lookup k d = None.
Proof.
  intros Hnd. apply NoDup_cons in Hnd as [Hk _].
  induction d as [|[k0 v0] d IH]; simpl; [done|].
  destruct (String.eqb_spec k0 k) as [->|Hne].
  - exfalso. apply Hk. simpl. apply list_elem_of_here.
  - apply IH. intros Hin. apply Hk. simpl. by apply list_elem_of_further.
Qed.

Lemma object_users_lookup (user_id : string) (d : pydict) (m : list (string * pydict)) :
  NoDup (dict_keys d) ->
  dict_lookup user_id (foldl add_object_user m d) =
  match dict_lookup user_id d with
  | Some (VDict user_info) => Some (user_record user_info user_id)
  | _ => dict_lookup user_id m
  end.
Proof.
  revert m. induction d as [|[k v] d IH]; intros m Hnd; simpl; [done|].
  destruct (String.eqb_spec k user_id) as [->|Hne].
  - rewrite (object_users_untouched _ _ _ (NoDup_keys_lookup_tail _ _ _ Hnd)).
    unfold add_object_user. simpl. destruct v; try done. apply assoc_lookup_set_eq.
  - apply NoDup_cons in Hnd as [_ Hnd]. rewrite (IH _ Hnd).
    destruct (dict_lookup user_id d) as [[]|]; try done;
      unfold add_object_user; simpl; destruct v; try done; by apply assoc_lookup_set_ne.
Qed.

(** Object format: the mapping has a record for a key exactly when the
    value under that key is a [dict], and the record is built from that
    value; values of any other type are skipped. *)
Theorem user_mapping_object_lookup (d : pydict) (user_id : string) :
  NoDup (dict_keys d) ->
  dict_lookup user_id (user_mapping_of_data (VDict d)) =
  match dict_lookup user_id d with
  | Some (VDict user_info) => Some (user_record user_info user_id)
  | _ => None
  end.
Proof. intros Hnd. simpl. by rewrite object_users_lookup. Qed.

Lemma user_mapping_object_lookup_witness :
  dict_lookup "u1"
    (user_mapping_of_data
       (VDict [("u1", VDict [("email_address", VStr "ada@example.org")]); ("u2", VInt 3)]))
  = Some [("name", VNone); ("email", VStr "ada@example.org"); ("id", VStr "u1")].
Proof.
  apply (user_mapping_object_lookup
           [("u1", VDict [("email_address", VStr "ada@example.org")]); ("u2", VInt 3)] "u1").
  repeat constructor; set_solver.
Defined.

(** ** Labels and exports for string identifiers *)

Lemma display_name_str_total (s : string) (user_info_mapping : list (string * pydict)) :
  exists label, get_user_display_name (VStr s) user_info_mapping = Ok label.
Proof.
  unfold get_user_display_name.
  destruct user_info_mapping as [|kv rest]; [eauto|].
  destruct (dict_lookup _ _) as [user_info|]; [|eauto].
  destruct (py_truthy (dict_get "name" user_info)), (py_truthy (dict_get "email" user_info));
    simpl; eauto.
Qed.

(** For an identifier that is a string, as those of [extract_users] are,
    the display name is returned without raising, whatever the mapping
    holds, and it is not empty unless the identifier is. *)
Theorem display_name_of_string (s : string) (user_info_mapping : list (string * pydict)) :
  exists label, get_user_display_name (VStr s) user_info_mapping = Ok label /\
    (s = EmptyString \/ exists c rest, label = String c rest).
Proof.
  unfold get_user_display_name.
  assert (Hs : s = EmptyString \/ exists c rest, s = String c rest).
  { destruct s; eauto. }
  assert (Happ : forall a b : string, exists c rest, a +:+ " " +:+ b = String c rest).
  { intros [|? ?] b; by eexists _, _. }
  destruct user_info_mapping as [|kv rest]; [eauto|].
  destruct (dict_lookup _ _) as [user_info|]; [|eauto].
  destruct (py_truthy (dict_get "name" user_info)), (py_truthy (dict_get "email" user_info));
    simpl; eexists; (split; [done|]); try done; right.
  - apply (Happ _ ("(" +:+ py_str (dict_get "email" user_info) +:+ ")")).
  - apply (Happ _ ("[" +:+ substring 0 8 s +:+ "...]")).
  - apply (Happ _ ("[" +:+ substring 0 8 s +:+ "...]")).
Qed.

(** ** Reading an export back *)

(** The three traversals read an export written with its header as the list
    of its conversations: no field of the header is taken for a conversation
    or an owner. *)
Theorem header_is_transparent
    (filtered_data : list pyval) (selected_user target : pyval)
    (user_info_mapping : list (string * pydict)) (export_date : string) (doc : pyval) :
  output_data filtered_data selected_user user_info_mapping export_date true = Ok doc ->
  extract_users doc = extract_users (VList filtered_data) /\
  get_user_conversation_count doc target
    = get_user_conversation_count (VList filtered_data) target /\
  filter_conversations_by_user doc target
    = filter_conversations_by_user (VList filtered_data) target.
Proof.
  unfold output_data.
  destruct (get_user_display_name selected_user user_info_mapping) as [label|e];
    simpl; [|done].
  intros [= <-]. by rewrite extract_users_dict, count_dict, filter_dict.
Qed.

Lemma header_is_transparent_witness :
  extract_users
    (VDict [("user_id", VStr "u1"); ("user_display", VStr "u1");
            ("export_date", VStr "2025-01-01T00:00:00");
            ("conversation_count", VInt 1);
            ("conversations", VList [VDict [("messages", VList [VDict [("sender", VStr "u1")]])]])])
  = extract_users (VList [VDict [("messages", VList [VDict [("sender", VStr "u1")]])]]).
Proof.
  exact (proj1 (header_is_transparent
                  [VDict [("messages", VList [VDict [("sender", VStr "u1")]])]]
                  (VStr "u1") VNone [] "2025-01-01T00:00:00" _ eq_refl)).
Defined.

(** For a list document and a user given by a string: the export of the
    filter's result, with or without header, is always built, and filtering
    the exported document again for the same user returns the exported
    conversations. *)
Theorem export_filters_to_itself
    (conversations filtered : list pyval) (s : string)
    (user_info_mapping : list (string * pydict)) (export_date : string)
    (include_header : bool) :
  filter_conversations_by_user (VList conversations) (VStr s) = Ok filtered ->
  exists doc,
    output_data filtered (VStr s) user_info_mapping export_date include_header = Ok doc /\
    filter_conversations_by_user doc (VStr s) = Ok filtered.
Proof.
  intros Hf. pose proof (filter_list_again _ _ _ Hf) as Hagain.
  unfold output_data. destruct include_header.
  - destruct (display_name_str_total s user_info_mapping) as [label ->]. simpl.
    eexists. split; [done|]. by rewrite filter_dict.
  - eexists. split; [done|]. exact Hagain.
Qed.

Lemma export_filters_to_itself_witness :
  exists doc,
    output_data [VDict [("messages", VList [VDict [("sender", VStr "u1")]])]]
      (VStr "u1") [("u1", [("name", VStr "Ada"); ("email", VNone); ("id", VStr "u1")])]
      "2025-01-01T00:00:00" true = Ok doc /\
    filter_conversations_by_user doc (VStr "u1")
    = Ok [VDict [("messages", VList [VDict [("sender", VStr "u1")]])]].
Proof.
  apply (export_filters_to_itself
           [VDict [("messages", VList [VDict [("sender", VStr "u1")];
                                       VDict [("sender", VStr "u2")]])]]).
  reflexivity.
Defined.

(** ** The output file name *)

Lemma str_filter_all (f : ascii -> bool) (s : string) :
  forallb f (list_ascii_of_string (str_filter f s)) = true.
Proof.
  induction s as [|c s IH]; simpl; [done|].
  destruct (f c) eqn:Hc; simpl; [|done]. by rewrite Hc.
Qed.

(** When [main] gets a default file name, it is [claude_conversations_],
    a stem, [_], the time stamp and [.json], and the stem holds only letters,
    digits, [-] and [_]: nothing of a display name or an identifier that could
    name a directory or an extension reaches the file name. *)
Theorem default_output_file_safe (selected_user : string)
    (user_info_mapping : list (string * pydict)) (timestamp output_file : string) :
  default_output_file selected_user user_info_mapping timestamp = Some output_file ->
  exists stem,
    output_file = "claude_conversations_" +:+ stem +:+ "_" +:+ timestamp +:+ ".json" /\
    forallb safe_char (list_ascii_of_string stem) = true.
Proof.
  unfold default_output_file.
  destruct user_info_mapping as [|kv rest];
    [intros [= <-]; eexists; split; [done|apply str_filter_all]|].
  destruct (dict_lookup _ _) as [user_info|];
    [|intros [= <-]; eexists; split; [done|apply str_filter_all]].
  destruct (dict_get_default "name" _ user_info) as [| | | |name| |]; try done.
  destruct (py_truthy _); intros [= <-]; eexists; split; try done; apply str_filter_all.
Qed.

Lemma default_output_file_safe_witness :
  exists stem,
    "claude_conversations_Ada_L_20250101_120000.json"
    = "claude_conversations_" +:+ stem +:+ "_" +:+ "20250101_120000" +:+ ".json" /\
    forallb safe_char (list_ascii_of_string stem) = true.
Proof.
  apply (default_output_file_safe "u/1"
           [("u/1", [("name", VStr "Ada L."); ("email", VNone); ("id", VStr "u/1")])]
           "20250101_120000").
  reflexivity.
Defined.

(** [main] fails with [AttributeError] while it builds the default file
    name exactly when the selected user has an identity record whose [name]
    is not a string. *)
Theorem default_output_file_fails_iff (selected_user : string)
    (user_info_mapping : list (string * pydict)) (timestamp : string) :
  default_output_file selected_user user_info_mapping timestamp = None <->
  exists user_info, dict_lookup selected_user user_info_mapping = Some user_info /\
    forall name, dict_get_default "name" (VStr EmptyString) user_info <> VStr name.
Proof.
  unfold default_output_file. split.
  - destruct user_info_mapping as [|kv rest]; [done|].
    destruct (dict_lookup _ _) as [user_info|]; [|done].
    intros Hnone. exists user_info. split; [done|]. intros name Hname.
    rewrite Hname in Hnone. by destruct (py_truthy _).
  - intros (user_info & Hl & Hname).
    destruct user_info_mapping as [|kv rest]; [done|]. rewrite Hl.
    destruct (dict_get_default "name" _ user_info) as [| | | |name| |]; try done.
    by destruct (Hname name).
Qed.

Lemma default_output_file_fails_iff_witness :
  default_output_file "u1" [("u1", [("name", VInt 7); ("email", VNone); ("id", VStr "u1")])]
    "20250101_120000" = None.
Proof.
  apply (proj2 (default_output_file_fails_iff "u1"
                  [("u1", [("name", VInt 7); ("email", VNone); ("id", VStr "u1")])]
                  "20250101_120000")).
  eexists. split; [reflexivity|]. intros name. discriminate.
Defined.

(** A user whose entry in an identity file of the object format has none of
    [name], [display_name] and [full_name] gets the name [None] in the
    mapping, so building the default file name for that user fails: the
    export of a user known by e-mail only never reaches the file. *)
Theorem unnamed_user_has_no_output_file (d user_info : pydict) (selected_user timestamp : string) :
  NoDup (dict_keys d) ->
  dict_lookup selected_user d = Some (VDict user_info) ->
  dict_lookup "name" user_info = None ->
  dict_lookup "display_name" user_info = None ->
  dict_lookup "full_name" user_info = None ->
  default_output_file selected_user (user_mapping_of_data (VDict d)) timestamp = None.
Proof.
  intros Hnd Hu Hn Hdn Hfn.
  pose proof (object_users_lookup selected_user d [] Hnd) as Hl. rewrite Hu in Hl.
  unfold default_output_file. simpl user_mapping_of_data.
  destruct (foldl add_object_user [] d) as [|kv rest]; [done|].
  rewrite Hl. unfold user_record, dict_get, dict_get_default. simpl.
  by rewrite Hn, Hdn, Hfn.
Qed.

Lemma unnamed_user_has_no_output_file_witness :
  default_output_file "u1"
    (user_mapping_of_data (VDict [("u1", VDict [("email", VStr "ada@example.org")])]))
    "20250101_120000" = None.
Proof.
  apply (unnamed_user_has_no_output_file
           [("u1", VDict [("email", VStr "ada@example.org")])]
           [("email", VStr "ada@example.org")]); try reflexivity.
  repeat constructor; set_solver.
Defined.

Lemma append_cons (c : ascii) (s t : string) : String c s +:+ t = String c (s +:+ t).
Proof. reflexivity. Qed.

Lemma str_map_append (f : ascii -> ascii) (s t : string) :
  str_map f (s +:+ t) = str_map f s +:+ str_map f t.
Proof.
  induction s as [|c s IH]; [done|].
  rewrite append_cons. simpl. by rewrite IH, append_cons.
Qed.

Lemma append_assoc (s t u : string) : s +:+ t +:+ u = (s +:+ t) +:+ u.
Proof.
  induction s as [|c s IH]; [done|].
  by rewrite !append_cons, IH.
Qed.

Lemma str_endswith_append (s suffix : string) : str_endswith (s +:+ suffix) suffix = true.
Proof.
  induction s as [|c s IH].
  - change (EmptyString +:+ suffix) with suffix.
    destruct suffix; simpl; by rewrite ?String.eqb_refl, ?Ascii.eqb_refl.
  - rewrite append_cons. simpl. rewrite IH. apply orb_true_r.
Qed.

Lemma final_output_file_ends (output_file custom_output : string) :
  str_endswith (py_lower (final_output_file output_file custom_output)) ".json" = true.
Proof.
  unfold final_output_file.
  set (chosen := if py_truthy (VStr custom_output) then custom_output else output_file).
  destruct (str_endswith (py_lower chosen) ".json") eqn:He; simpl; [done|].
  unfold py_lower. rewrite str_map_append.
  apply (str_endswith_append (str_map py_lower_char chosen) ".json").
Qed.

(** The file name [main] writes to always ends with [.json] in some letter
    case, and passing it through the same step again, with no name typed,
    leaves it as it is: the extension is never doubled. *)
Theorem final_output_file_extension (output_file custom_output : string) :
  str_endswith (py_lower (final_output_file output_file custom_output)) ".json" = true /\
  final_output_file (final_output_file output_file custom_output) EmptyString
  = final_output_file output_file custom_output.
Proof.
  split; [apply final_output_file_ends|].
  pose proof (final_output_file_ends output_file custom_output) as He.
  unfold final_output_file at 1. simpl. by rewrite He.
Qed.

(** The default file name already has the extension: with no name typed,
    [main] writes to the default name unchanged. *)
Theorem default_output_file_kept (selected_user : string)
    (user_info_mapping : list (string * pydict)) (timestamp output_file : string) :
  default_output_file selected_user user_info_mapping timestamp = Some output_file ->
  final_output_file output_file EmptyString = output_file.
Proof.
  intros Hd.
  assert (He : str_endswith (py_lower output_file) ".json" = true).
  { revert Hd. unfold default_output_file.
    assert (Hany : forall stem : string,
              str_endswith (py_lower ("claude_conversations_" +:+ stem +:+ "_"
                                        +:+ timestamp +:+ ".json")) ".json" = true).
    { intros stem. unfold py_lower. rewrite !str_map_append.
      rewrite !append_assoc. apply str_endswith_append. }
    destruct user_info_mapping as [|kv rest]; [by intros [= <-]|].
    destruct (dict_lookup _ _) as [user_info|]; [|by intros [= <-]].
    destruct (dict_get_default "name" _ user_info) as [| | | |name| |]; try done.
    destruct (py_truthy _); by intros [= <-]. }
  unfold final_output_file. simpl. by rewrite He.
Qed.

Lemma default_output_file_kept_witness :
  final_output_file "claude_conversations_u1_20250101_120000.json" EmptyString
  = "claude_conversations_u1_20250101_120000.json".
Proof.
  apply (default_output_file_kept "u1" [] "20250101_120000").
  reflexivity.
Defined.

(** ** Entries that are not conversations, and documents put together *)

Lemma for_each_skip {S A : Type} (body : S -> A -> result S) (keep : A -> bool)
    (items : list A) (s : S) :
  (forall s x, keep x = false -> body s x = Ok s) ->
  for_each body s items = for_each body s (List.filter keep items).
Proof.
  intros Hskip. revert s. induction items as [|x items IH]; intros s; simpl; [done|].
  destruct (keep x) eqn:Hx; simpl.
  - destruct (body s x); simpl; [apply IH|done].
  - rewrite (Hskip s x Hx). simpl. apply IH.
Qed.

(** The entries of a list document that are not [dict]s (numbers, strings,
    [null], nested lists) are skipped by the three traversals: the outcome
    is that of the document without them. *)
Theorem non_dict_entries_ignored (conversations : list pyval) (target : pyval) :
  extract_users (VList conversations)
    = extract_users (VList (List.filter is_dict conversations)) /\
  get_user_conversation_count (VList conversations) target
    = get_user_conversation_count (VList (List.filter is_dict conversations)) target /\
  filter_conversations_by_user (VList conversations) target
    = filter_conversations_by_user (VList (List.filter is_dict conversations)) target.
Proof.
  simpl. split; [|split].
  - by rewrite (for_each_skip extract_conv is_dict) by (by intros s []).
  - by apply for_each_skip; intros s [].
  - by apply for_each_skip; intros s [].
Qed.

Lemma for_each_app {S A : Type} (body : S -> A -> result S) (l1 l2 : list A) (s : S) :
  for_each body s (l1 ++ l2) = s' ← for_each body s l1; for_each body s' l2.
Proof.
  revert s. induction l1 as [|x l1 IH]; intros s; simpl; [done|].
  destruct (body s x); simpl; [apply IH|done].
Qed.

(** The filter of two list documents put end to end is the filter of the
    first followed by the filter of the second. *)
Theorem filter_app (conversations1 conversations2 filtered1 filtered2 : list pyval)
    (selected_user : pyval) :
  filter_conversations_by_user (VList conversations1) selected_user = Ok filtered1 ->
  filter_conversations_by_user (VList conversations2) selected_user = Ok filtered2 ->
  filter_conversations_by_user (VList (conversations1 ++ conversations2)) selected_user
  = Ok (filtered1 ++ filtered2).
Proof.
  simpl. rewrite !for_each_filter_conv, forallb_app, omap_app.
  destruct (forallb _ conversations1); [|done].
  destruct (forallb _ conversations2); [|done].
  by intros [= <-] [= <-].
Qed.

Lemma filter_app_witness :
  filter_conversations_by_user
    (VList ([VDict [("user_id", VStr "u")]]
            ++ [VDict [("chat_messages", VList [VDict [("sender", VStr "u")]])]]))
    (VStr "u")
  = Ok ([VDict [("user_id", VStr "u")]]
        ++ [VDict [("chat_messages", VList [VDict [("sender", VStr "u")]])]]).
Proof.
  apply filter_app; reflexivity.
Defined.
